(** * minagent: the decide / call-tool / answer loop of [src/minagent]

    A shallow embedding of [agent.py], [nodes.py], [flow.py] and of the
    configuration, the transports and the stream parser of [utils.py].

    Conventions of the embedding.
    - A Python [str] is a [string]; one [ascii] stands for one code point
      (so the model covers the code points below 256).
    - A Python [dict] is an association list in insertion order, because
      the prompt renders the registry in iteration order.
    - An exception is a value of [pyexc]; these are the instances of
      [Exception], which is what the handlers of the code name
      ([except Exception]).  Process signals that derive from
      [BaseException] only ([KeyboardInterrupt], [SystemExit]) are not
      part of the model.
    - The logger is the default one, [Logger()] of [logger.py], which
      [Agent.__init__] installs when [logging] and [verbose_logging] keep
      their default [False]: every method of it returns at its guard
      ([if not self.enabled: return], [if not self.verbose: return]).
      The calls are therefore left out; argument expressions of such a
      call that can raise are kept.
    - [yaml.safe_load] and the transport behind [call_llm] belong to other
      packages; they are variables of the section that holds the nodes.
    - The classes [Node] and [Flow] of the package [minllm] are not among
      the files of [src]; the engine is modelled after section 4.4 of the
      specification. *)

From Stdlib Require Import String Ascii List Bool Arith ZArith Lia.
From Stdlib Require Import DecimalString.
Import ListNotations.

Set Warnings "-register-all".

Open Scope list_scope.
Open Scope string_scope.

(* ================================================================== *)
(** ** Strings *)

Module Str.

Definition nl : string := String (ascii_of_nat 10) EmptyString.

(** [sep.join(parts)] *)
Fixpoint join (sep : string) (parts : list string) : string :=
  match parts with
  | [] => ""
  | [p] => p
  | p :: rest => p ++ sep ++ join sep rest
  end.

(** [s[:n]] for [n >= 0] *)
Fixpoint take (n : nat) (s : string) : string :=
  match n, s with
  | S k, String c s' => String c (take k s')
  | _, _ => ""
  end.

(** [sub in s], for the non-empty [sub] the code uses *)
Fixpoint contains (sub s : string) : bool :=
  match s with
  | EmptyString => prefix sub s
  | String _ s' => prefix sub s || contains sub s'
  end.

(** [s.split(sep)] for a non-empty [sep]: the pieces between the
    occurrences of [sep], found left to right without overlap.  [skip]
    counts the characters of a matched separator still to pass. *)
Fixpoint split_from (sep : string) (skip : nat) (s : string) : list string :=
  match s with
  | EmptyString => [""]
  | String c s' =>
      match skip with
      | S k => split_from sep k s'
      | O =>
          if prefix sep s
          then "" :: split_from sep (String.length sep - 1) s'
          else match split_from sep 0 s' with
               | p :: ps => String c p :: ps
               | [] => [String c ""]
               end
      end
  end.

Definition split (s sep : string) : list string := split_from sep 0 s.

(** [str.isspace] on one code point below 256 *)
Definition isspace (c : ascii) : bool :=
  let n := nat_of_ascii c in
  (((9 <=? n) && (n <=? 13)) || ((28 <=? n) && (n <=? 32))
   || (n =? 133) || (n =? 160))%nat.

Fixpoint lstrip (s : string) : string :=
  match s with
  | String c s' => if isspace c then lstrip s' else s
  | EmptyString => ""
  end.

Fixpoint rstrip (s : string) : string :=
  match s with
  | String c s' =>
      match rstrip s' with
      | EmptyString => if isspace c then "" else String c ""
      | r => String c r
      end
  | EmptyString => ""
  end.

(** [s.strip()] *)
Definition strip (s : string) : string := rstrip (lstrip s).

(** [s.upper()] on the ASCII letters; the code applies it to the two
    role names only. *)
Definition upper_char (c : ascii) : ascii :=
  let n := nat_of_ascii c in
  if ((97 <=? n) && (n <=? 122))%nat then ascii_of_nat (n - 32) else c.

Fixpoint upper (s : string) : string :=
  match s with
  | EmptyString => ""
  | String c s' => String (upper_char c) (upper s')
  end.

End Str.

(** [l[-n:]] for [n > 0] *)
Definition lastn {A : Type} (n : nat) (l : list A) : list A :=
  skipn (List.length l - n) l.

(* ================================================================== *)
(** ** Python values *)

(** The values that [yaml.safe_load] yields and that tools take and
    return.  The keys of a mapping are strings.  [PObj s r] is any other
    object, given by its [str()] and its [repr()] (a float, a date, a
    type such as [int]). *)
Inductive pyval : Type :=
| PNone
| PBool (b : bool)
| PInt (z : Z)
| PStr (s : string)
| PList (l : list pyval)
| PDict (d : list (string * pyval))
| PObj (str_ repr_ : string).

Module Repr.

Definition hex_digit (n : nat) : ascii :=
  if (n <? 10)%nat then ascii_of_nat (48 + n) else ascii_of_nat (87 + n).

Definition hex_escape (c : ascii) : string :=
  let n := nat_of_ascii c in
  "\x" ++ String (hex_digit (n / 16)) (String (hex_digit (n mod 16)) "").

Definition squote : ascii := "'"%char.
Definition dquote : ascii := ascii_of_nat 34.
Definition backslash : ascii := "\"%char.

Fixpoint has_char (q : ascii) (s : string) : bool :=
  match s with
  | EmptyString => false
  | String c s' => Ascii.eqb c q || has_char q s'
  end.

(** [str.isprintable] on one code point below 256 *)
Definition isprintable (c : ascii) : bool :=
  let n := nat_of_ascii c in
  (((32 <=? n) && (n <? 127)) || ((161 <=? n) && negb (n =? 173)))%nat.

Definition repr_char (quote c : ascii) : string :=
  let n := nat_of_ascii c in
  if Ascii.eqb c quote || Ascii.eqb c backslash then String backslash (String c "")
  else if (n =? 9)%nat then "\t"
  else if (n =? 10)%nat then "\n"
  else if (n =? 13)%nat then "\r"
  else if isprintable c then String c ""
  else hex_escape c.

Fixpoint repr_chars (quote : ascii) (s : string) : string :=
  match s with
  | EmptyString => ""
  | String c s' => repr_char quote c ++ repr_chars quote s'
  end.

(** [repr(s)] of a [str]: single quotes, unless the text has a single
    quote and no double quote. *)
Definition repr_str (s : string) : string :=
  let quote := if has_char squote s && negb (has_char dquote s)
               then dquote else squote in
  String quote (repr_chars quote s ++ String quote "").

Definition repr_int (z : Z) : string := NilZero.string_of_int (Z.to_int z).

End Repr.

(** [repr(v)] *)
Fixpoint py_repr (v : pyval) : string :=
  match v with
  | PNone => "None"
  | PBool b => if b then "True" else "False"
  | PInt z => Repr.repr_int z
  | PStr s => Repr.repr_str s
  | PList l => "[" ++ Str.join ", " (map py_repr l) ++ "]"
  | PDict d =>
      "{" ++ Str.join ", "
               (map (fun kv => let '(k, x) := kv in
                               Repr.repr_str k ++ ": " ++ py_repr x) d)
          ++ "}"
  | PObj _ r => r
  end.

(** [str(v)], which is also what an f-string field [{v}] renders *)
Definition py_str (v : pyval) : string :=
  match v with
  | PStr s => s
  | PObj s _ => s
  | _ => py_repr v
  end.


(** [v is not None] *)
Definition is_not_None (v : pyval) : bool :=
  match v with PNone => false | _ => true end.

(** [v == s] for a [str] literal [s] *)
Definition eq_str (v : pyval) (s : string) : bool :=
  match v with PStr t => String.eqb t s | _ => false end.

(* ================================================================== *)
(** ** Exceptions and results *)

(** A raised exception: its class name and [str(e)]. *)
Record pyexc : Type := mkExc { exc_class : string; exc_str : string }.

Inductive outcome (A : Type) : Type :=
| Ok (a : A)
| Raise (e : pyexc).
Arguments Ok {A} a.
Arguments Raise {A} e.

Definition bind {A B : Type} (m : outcome A) (k : A -> outcome B) : outcome B :=
  match m with
  | Ok a => k a
  | Raise e => Raise e
  end.

Notation "x <- m ;; k" := (bind m (fun x => k))
  (at level 61, m at next level, right associativity).

(** The errors the interpreter itself raises on the paths of the code. *)
Definition IndexError : pyexc := mkExc "IndexError" "list index out of range".
Definition KeyError (key : string) : pyexc := mkExc "KeyError" (Repr.repr_str key).
Definition TypeError (msg : string) : pyexc := mkExc "TypeError" msg.
Definition AttributeError (msg : string) : pyexc := mkExc "AttributeError" msg.

(** [type(v).__name__] *)
Definition type_name (v : pyval) : string :=
  match v with
  | PNone => "NoneType"
  | PBool _ => "bool"
  | PInt _ => "int"
  | PStr _ => "str"
  | PList _ => "list"
  | PDict _ => "dict"
  | PObj _ _ => "object"
  end.

(* ================================================================== *)
(** ** Dictionaries *)

Module Dict.
Section Ops.
Context {V : Type}.

(** [d.get(key)] *)
Fixpoint get (d : list (string * V)) (key : string) : option V :=
  match d with
  | [] => None
  | (k, v) :: rest => if String.eqb k key then Some v else get rest key
  end.

(** [d[key] = v]: a present key keeps its place, a new one goes last *)
Fixpoint set (d : list (string * V)) (key : string) (v : V) : list (string * V) :=
  match d with
  | [] => [(key, v)]
  | (k, x) :: rest =>
      if String.eqb k key then (k, v) :: rest else (k, x) :: set rest key v
  end.

Definition keys (d : list (string * V)) : list string := map fst d.
End Ops.
End Dict.

(** [v[key]] for a [str] key *)
Definition subscript (v : pyval) (key : string) : outcome pyval :=
  match v with
  | PDict d =>
      match Dict.get d key with
      | Some x => Ok x
      | None => Raise (KeyError key)
      end
  | PStr _ => Raise (TypeError "string indices must be integers, not 'str'")
  | PList _ => Raise (TypeError "list indices must be integers or slices, not str")
  | _ => Raise (TypeError ("'" ++ type_name v ++ "' object is not subscriptable"))
  end.

(** [v.get(key, dflt)] *)
Definition get_default (v : pyval) (key : string) (dflt : pyval) : outcome pyval :=
  match v with
  | PDict d =>
      match Dict.get d key with
      | Some x => Ok x
      | None => Ok dflt
      end
  | _ => Raise (AttributeError
                  ("'" ++ type_name v ++ "' object has no attribute 'get'"))
  end.

(* ================================================================== *)
(** ** Callables and what [inspect] reports of them *)

(** How a call passes its arguments: a mapping expanded into keyword
    arguments, or one positional argument. *)
Inductive callargs : Type :=
| Kwargs (kw : list (string * pyval))
| Positional (x : pyval).

(** [inspect.Parameter.kind]; [str(kind)] is the name of the member. *)
Inductive ParamKind : Type :=
| POSITIONAL_ONLY
| POSITIONAL_OR_KEYWORD
| VAR_POSITIONAL
| KEYWORD_ONLY
| VAR_KEYWORD.

Definition kind_str (k : ParamKind) : string :=
  match k with
  | POSITIONAL_ONLY => "POSITIONAL_ONLY"
  | POSITIONAL_OR_KEYWORD => "POSITIONAL_OR_KEYWORD"
  | VAR_POSITIONAL => "VAR_POSITIONAL"
  | KEYWORD_ONLY => "KEYWORD_ONLY"
  | VAR_KEYWORD => "VAR_KEYWORD"
  end.

(** One entry of [inspect.signature(f).parameters]; [None] as the
    default stands for [inspect.Parameter.empty]. *)
Record SigParam : Type := mkSigParam {
  param_default : option pyval;
  param_kind : ParamKind
}.

(** A tool as the agent sees it: [__name__], the signature, the result
    of [get_type_hints], the result of [inspect.getdoc] and what a call
    does (binding errors included). *)
Record pyfunc : Type := mkFunc {
  fn_name : string;
  fn_signature : list (string * SigParam);
  fn_type_hints : list (string * pyval);
  fn_getdoc : option string;
  fn_call : callargs -> outcome pyval
}.

(* ================================================================== *)
(** ** agent.py: the registry *)

(** A value of [params] in [register_tool]. *)
Record ParamInfo : Type := mkParamInfo {
  p_type : string;
  p_default : pyval;
  p_kind : string
}.

(** The dict that [register_tool] returns. *)
Record ToolInfo : Type := mkToolInfo {
  info_name : string;
  info_function : pyfunc;
  info_description : string;
  info_parameters : list (string * ParamInfo)
}.

(** [x or y] on an optional [str]: [None] and the empty string are falsy *)
Definition str_or (x : option string) (y : string) : string :=
  match x with
  | Some (String c s) => String c s
  | _ => y
  end.

Definition param_info (type_hints : list (string * pyval))
           (param_name : string) (param : SigParam) : ParamInfo :=
  let param_type :=
    match Dict.get type_hints param_name with
    | Some t => t
    | None => PStr "Any"
    end in
  let default :=
    match param_default param with
    | Some v => v
    | None => PNone
    end in
  mkParamInfo (py_str param_type) default (kind_str (param_kind param)).

Definition register_tool (tool : pyfunc) : ToolInfo :=
  let name := fn_name tool in
  let sig := fn_signature tool in
  let type_hints := fn_type_hints tool in
  let doc := str_or (fn_getdoc tool) ("Function " ++ name) in
  let params :=
    fold_left (fun params np => Dict.set params (fst np)
                                  (param_info type_hints (fst np) (snd np)))
              sig [] in
  mkToolInfo name tool doc params.

(** The loop of [Agent.__init__] that fills [self.tool_registry]. *)
Definition build_registry (tools : list pyfunc) : list (string * ToolInfo) :=
  fold_left (fun reg tool =>
               let tool_info := register_tool tool in
               Dict.set reg (info_name tool_info) tool_info)
            tools [].

(* ================================================================== *)
(** ** The run context *)

Inductive Role : Type := user | assistant.

Definition role_str (r : Role) : string :=
  match r with
  | user => "user"
  | assistant => "assistant"
  end.

(** An entry of [Agent.conversation_history]. *)
Record Message : Type := mkMessage { role : Role; content : pyval }.

(** An entry of [shared['tool_calls']]. *)
Record ToolCallRecord : Type := mkToolCall {
  tool : pyval;
  args : pyval;
  result : string
}.

(** The dict [shared] that [Agent.run] builds and the nodes mutate.  The
    two keys that [run] does not set are optional. *)
Record Shared : Type := mkShared {
  query : string;
  base_prompt : string;
  conversation_history : string;
  tool_registry : list (string * ToolInfo);
  tool_calls : list ToolCallRecord;
  last_decision : option pyval;
  final_answer : option pyval
}.

Definition set_last_decision (sh : Shared) (v : pyval) : Shared :=
  mkShared (query sh) (base_prompt sh) (conversation_history sh)
           (tool_registry sh) (tool_calls sh) (Some v) (final_answer sh).

Definition set_final_answer (sh : Shared) (v : pyval) : Shared :=
  mkShared (query sh) (base_prompt sh) (conversation_history sh)
           (tool_registry sh) (tool_calls sh) (last_decision sh) (Some v).

Definition append_tool_call (sh : Shared) (c : ToolCallRecord) : Shared :=
  mkShared (query sh) (base_prompt sh) (conversation_history sh)
           (tool_registry sh) (tool_calls sh ++ [c])%list
           (last_decision sh) (final_answer sh).

(* ================================================================== *)
(** ** State and errors

    A computation reads and writes a state and returns or raises; what
    it wrote before raising stays written. *)

Definition M (S A : Type) : Type := S -> S * outcome A.

Definition ret {S A : Type} (a : A) : M S A := fun s => (s, Ok a).

Definition raise {S A : Type} (e : pyexc) : M S A := fun s => (s, Raise e).

Definition bindM {S A B : Type} (m : M S A) (k : A -> M S B) : M S B :=
  fun s =>
    match m s with
    | (s', Ok a) => k a s'
    | (s', Raise e) => (s', Raise e)
    end.

Definition lift {S A : Type} (o : outcome A) : M S A := fun s => (s, o).

Definition modify {S : Type} (f : S -> S) : M S unit := fun s => (f s, Ok tt).

Notation "x <-- m ;;; k" := (bindM m (fun x => k))
  (at level 61, m at next level, right associativity).
Notation "m ;;; k" := (bindM m (fun _ => k))
  (at level 61, right associativity).

(* ================================================================== *)
(** ** nodes.py: the prompt *)

(** What [DecideAction.prep] returns. *)
Record DecideInputs : Type := mkDecideInputs {
  in_query : string;
  in_base_prompt : string;
  in_conversation_history : string;
  in_tool_registry : list (string * ToolInfo);
  in_tool_calls : list ToolCallRecord
}.

Definition param_str (param_name : string) (param_info : ParamInfo) : string :=
  let param_type := p_type param_info in
  let default := p_default param_info in
  let s := param_name ++ ": " ++ param_type in
  if is_not_None default then s ++ " = " ++ py_str default else s.

Definition tool_desc (name : string) (info : ToolInfo) : string :=
  let params_desc :=
    map (fun np => param_str (fst np) (snd np)) (info_parameters info) in
  let params_text :=
    match params_desc with
    | [] => "()"
    | _ => "(" ++ Str.join ", " params_desc ++ ")"
    end in
  "- " ++ name ++ params_text ++ ": " ++ info_description info.

Definition tools_text (reg : list (string * ToolInfo)) : string :=
  match map (fun ni => tool_desc (fst ni) (snd ni)) reg with
  | [] => "No tools available"
  | tools_desc => Str.join Str.nl tools_desc
  end.

(** One line of the summary of a recorded call. *)
Definition call_line (call : ToolCallRecord) : string :=
  "- " ++ py_str (tool call) ++ ": " ++ Str.take 200 (result call) ++ "...".

Definition tool_history (calls : list ToolCallRecord) : string :=
  match calls with
  | [] => ""
  | _ => Str.nl ++ "Recent Tool Calls:" ++ Str.nl
         ++ Str.join Str.nl (map call_line (lastn 5 calls))
  end.

(** The text after the field of [tool_history] in the f-string. *)
Definition decision_instructions : string :=
  Str.nl ++ Str.nl ++
  "### DECISION" ++ Str.nl ++
  "Decide the next action. You can either:" ++ Str.nl ++
  "1. Call a tool to gather information" ++ Str.nl ++
  "2. Provide the final answer if you have sufficient information" ++ Str.nl ++
  Str.nl ++
  "Return your decision in YAML format:" ++ Str.nl ++
  Str.nl ++
  "```yaml" ++ Str.nl ++
  "thinking: |" ++ Str.nl ++
  "    <step-by-step reasoning about what to do next>" ++ Str.nl ++
  "action: tool OR answer" ++ Str.nl ++
  "tool_name: <name of tool if action is tool>" ++ Str.nl ++
  "tool_args: <arguments for tool as a dict if action is tool>" ++ Str.nl ++
  "final_answer: |" ++ Str.nl ++
  "    <complete answer if action is answer>" ++ Str.nl ++
  "```" ++ Str.nl.

(** The text before the field of [tool_history] in the f-string. *)
Definition prompt_head (inputs : DecideInputs) : string :=
  "### SYSTEM" ++ Str.nl ++
  in_base_prompt inputs ++ Str.nl ++
  Str.nl ++
  "### CONVERSATION HISTORY" ++ Str.nl ++
  in_conversation_history inputs ++ Str.nl ++
  Str.nl ++
  "### CURRENT QUERY" ++ Str.nl ++
  in_query inputs ++ Str.nl ++
  Str.nl ++
  "### AVAILABLE TOOLS" ++ Str.nl ++
  tools_text (in_tool_registry inputs) ++ Str.nl.

Definition build_prompt (inputs : DecideInputs) : string :=
  prompt_head inputs
  ++ tool_history (in_tool_calls inputs)
  ++ decision_instructions.

(* ================================================================== *)
(** ** nodes.py: the three nodes *)

(** The state a run threads: the dict [shared] and the number of calls
    made to the model so far. *)
Record St : Type := mkSt { shared : Shared; clock : nat }.

Definition fence_yaml : string := "```yaml".
Definition fence : string := "```".

(** [seq[i]] on a list *)
Definition index {A : Type} (l : list A) (i : nat) : outcome A :=
  match nth_error l i with
  | Some x => Ok x
  | None => Raise IndexError
  end.

(** [d[key]] on the optional keys of [shared] *)
Definition shared_key {A : Type} (key : string) (v : option A) : outcome A :=
  match v with
  | Some x => Ok x
  | None => Raise (KeyError key)
  end.

(** [shared['tool_registry'].get(tool_name)]: the key must be hashable;
    the keys of the registry are all [str]. *)
Definition registry_get (reg : list (string * ToolInfo)) (key : pyval)
  : outcome (option ToolInfo) :=
  match key with
  | PStr s => Ok (Dict.get reg s)
  | PList _ => Raise (TypeError "unhashable type: 'list'")
  | PDict _ => Raise (TypeError "unhashable type: 'dict'")
  | _ => Ok None
  end.

(** The arguments of the call in [CallTool.exec]. *)
Definition call_shape (tool_args : pyval) : callargs :=
  match tool_args with
  | PDict kw => Kwargs kw
  | x => Positional x
  end.

(** [decision.get('tool_args', {})] on a mapping *)
Definition tool_args_of (d : list (string * pyval)) : pyval :=
  match Dict.get d "tool_args" with
  | Some a => a
  | None => PDict []
  end.

(** The dict that [DecideAction.prep] builds from [shared]. *)
Definition inputs_of (sh : Shared) : DecideInputs :=
  mkDecideInputs (query sh) (base_prompt sh) (conversation_history sh)
                 (tool_registry sh) (tool_calls sh).

Section Nodes.

(** [call_llm n prompt]: what [utils.call_llm(prompt)] returns or
    raises when [n] calls were made before it. *)
Variable call_llm : nat -> string -> outcome string.

(** [yaml.safe_load] *)
Variable safe_load : string -> outcome pyval.

Definition DecideAction_prep (sh : Shared) : outcome DecideInputs :=
  Ok (inputs_of sh).

Definition DecideAction_exec (inputs : DecideInputs) : M nat pyval :=
  let prompt := build_prompt inputs in
  response <-- (fun n => (S n, call_llm n prompt)) ;;;
  after <-- lift (index (Str.split response fence_yaml) 1) ;;;
  block <-- lift (index (Str.split after fence) 0) ;;;
  let yaml_str := Str.strip block in
  decision <-- lift (safe_load yaml_str) ;;;
  ret decision.

Definition DecideAction_post (prep_res : DecideInputs) (exec_res : pyval)
  : M Shared string :=
  modify (fun sh => set_last_decision sh exec_res) ;;;
  (* the first argument of [logger.decision] *)
  lift (subscript exec_res "action") ;;;
  action <-- lift (subscript exec_res "action") ;;;
  if eq_str action "tool" then ret "tool"
  else
    answer <-- lift (subscript exec_res "final_answer") ;;;
    modify (fun sh => set_final_answer sh answer) ;;;
    ret "answer".

Definition CallTool_prep (sh : Shared) : outcome (option pyfunc * pyval * pyval) :=
  decision <- shared_key "last_decision" (last_decision sh) ;;
  tool_name <- subscript decision "tool_name" ;;
  tool_args <- get_default decision "tool_args" (PDict []) ;;
  tool_info <- registry_get (tool_registry sh) tool_name ;;
  match tool_info with
  | None => Ok (None, tool_name, tool_args)
  | Some info => Ok (Some (info_function info), tool_name, tool_args)
  end.

Definition CallTool_exec (inputs : option pyfunc * pyval * pyval) : M nat string :=
  let '(tool_func, tool_name, tool_args) := inputs in
  match tool_func with
  | None => ret ("Error: Tool '" ++ py_str tool_name ++ "' not found")
  | Some f =>
      match fn_call f (call_shape tool_args) with
      | Ok res => ret (py_str res)
      | Raise e =>
          ret ("Error calling " ++ py_str tool_name ++ ": " ++ exc_str e)
      end
  end.

Definition CallTool_post (prep_res : option pyfunc * pyval * pyval)
           (exec_res : string) : M Shared string :=
  let '(tool_func, tool_name, tool_args) := prep_res in
  modify (fun sh => append_tool_call sh (mkToolCall tool_name tool_args exec_res)) ;;;
  ret "decide".

Definition ProvideAnswer_prep (sh : Shared) : outcome pyval :=
  match final_answer sh with
  | Some a => Ok a
  | None => Ok (PStr "No answer generated")
  end.

Definition ProvideAnswer_exec (answer : pyval) : M nat pyval := ret answer.

Definition ProvideAnswer_post (prep_res exec_res : pyval) : M Shared string :=
  ret "done".

(* ---------------------------------------------------------------- *)
(** *** The engine of the package [minllm] *)

Definition on_shared {A : Type} (m : M Shared A) : M St A :=
  fun st => let '(sh, o) := m (shared st) in (mkSt sh (clock st), o).

Definition on_clock {A : Type} (m : M nat A) : M St A :=
  fun st => let '(n, o) := m (clock st) in (mkSt (shared st) n, o).

(** Modelled from the spec: [minllm.Node], whose source is not in the
    repository's files here.  Running a node is one step of the loop of
    section 4.4: the node prepares from the run context, executes once
    (a failure is raised to the caller, not retried) and its [post]
    names the transition. *)
Definition Node_run {P E : Type}
           (prep : Shared -> outcome P) (exec : P -> M nat E)
           (post : P -> E -> M Shared string) : M St string :=
  p <-- (fun st => (st, prep (shared st))) ;;;
  e <-- on_clock (exec p) ;;;
  on_shared (post p e).

Inductive node : Type := DecideAction | CallTool | ProvideAnswer.

Definition run_node (n : node) : M St string :=
  match n with
  | DecideAction => Node_run DecideAction_prep DecideAction_exec DecideAction_post
  | CallTool => Node_run CallTool_prep CallTool_exec CallTool_post
  | ProvideAnswer => Node_run ProvideAnswer_prep ProvideAnswer_exec ProvideAnswer_post
  end.

(** A flow: its start node and the transitions wired by
    [a - "action" >> b]. *)
Record Flow : Type := mkFlow {
  start : node;
  successors : node -> string -> option node
}.

(** flow.py *)
Definition create_agent_flow (reg : list (string * ToolInfo)) : Flow :=
  let decide := DecideAction in
  let call_tool := CallTool in
  let provide_answer := ProvideAnswer in
  mkFlow decide
         (fun n action =>
            match n with
            | DecideAction =>
                if String.eqb action "tool" then Some call_tool
                else if String.eqb action "answer" then Some provide_answer
                else None
            | CallTool =>
                if String.eqb action "decide" then Some decide else None
            | ProvideAnswer => None
            end).

(** One step of a flow: run the current node and follow its action.
    [None] as the next node ends the flow. *)
Definition Flow_step (flow : Flow) (curr : node) : M St (option node) :=
  action <-- run_node curr ;;;
  ret (successors flow curr action).

(** Modelled from the spec: [minllm.Flow.run], whose source is not in
    the repository's files here.  From the start node the flow runs the
    current node and moves along the transition its action names, until
    a node has no such transition (section 4.4: no step cap).  [fuel]
    bounds the number of steps; [None] says the bound was reached. *)
Fixpoint Flow_orch (fuel : nat) (flow : Flow) (curr : node) (st : St)
  : option (St * outcome unit) :=
  match fuel with
  | O => None
  | S fuel' =>
      match Flow_step flow curr st with
      | (st', Raise e) => Some (st', Raise e)
      | (st', Ok None) => Some (st', Ok tt)
      | (st', Ok (Some next)) => Flow_orch fuel' flow next st'
      end
  end.

Definition Flow_run (fuel : nat) (flow : Flow) (st : St)
  : option (St * outcome unit) :=
  Flow_orch fuel flow (start flow) st.

End Nodes.

(* ================================================================== *)
(** ** agent.py: the agent *)

Record Agent : Type := mkAgent {
  self_base_prompt : string;
  self_tools : list pyfunc;
  self_conversation_history : list Message;
  self_tool_call_history : list ToolCallRecord;
  self_tool_registry : list (string * ToolInfo)
}.

(** [Agent.__init__] with the default logging flags *)
Definition Agent_init (base_prompt : string) (tools : list pyfunc) : Agent :=
  mkAgent base_prompt tools [] [] (build_registry tools).

Definition format_message (msg : Message) : string :=
  let role := Str.upper (role_str (role msg)) in
  role ++ ": " ++ py_str (content msg).

Definition _get_optimized_history (self : Agent) : string :=
  let recent_history := lastn 20 (self_conversation_history self) in
  match recent_history with
  | [] => "No previous conversation"
  | _ => Str.join Str.nl (map format_message recent_history)
  end.

Definition append_message (self : Agent) (msg : Message) : Agent :=
  mkAgent (self_base_prompt self) (self_tools self)
          (self_conversation_history self ++ [msg])%list
          (self_tool_call_history self) (self_tool_registry self).

Definition extend_tool_calls (self : Agent) (calls : list ToolCallRecord) : Agent :=
  mkAgent (self_base_prompt self) (self_tools self)
          (self_conversation_history self)
          (self_tool_call_history self ++ calls)%list (self_tool_registry self).

Definition clear_history (self : Agent) : Agent :=
  mkAgent (self_base_prompt self) (self_tools self) [] [] (self_tool_registry self).

(** The dict [shared] that [run] hands to the flow; [self] already holds
    the query as its last message. *)
Definition initial_shared (self : Agent) (query : string) : Shared :=
  mkShared query (self_base_prompt self) (_get_optimized_history self)
           (self_tool_registry self) [] None None.

Definition default_answer : pyval := PStr "Unable to generate response".

Section Run.

Variable call_llm : nat -> string -> outcome string.
Variable safe_load : string -> outcome pyval.

(** [Agent.run], over what [flow.run(shared)] does: [engine flow st] is
    the state the flow leaves and whether it returned or raised, or
    [None] when it runs on.  The result is the agent after the call,
    the clock, and what [run] returns or raises. *)
Definition run_with (engine : Flow -> St -> option (St * outcome unit))
           (self : Agent) (now : nat) (query : string)
  : option (Agent * nat * outcome pyval) :=
  let self := append_message self (mkMessage user (PStr query)) in
  let flow := create_agent_flow (self_tool_registry self) in
  let sh := initial_shared self query in
  match engine flow (mkSt sh now) with
  | None => None
  | Some (st, Raise e) => Some (self, clock st, Raise e)
  | Some (st, Ok _) =>
      let sh := shared st in
      let answer :=
        match final_answer sh with
        | Some a => a
        | None => default_answer
        end in
      let self := append_message self (mkMessage assistant answer) in
      let self := extend_tool_calls self (tool_calls sh) in
      Some (self, clock st, Ok answer)
  end.

(** [Agent.run] with the engine of [minllm], given [fuel] steps *)
Definition run (fuel : nat) (self : Agent) (now : nat) (query : string)
  : option (Agent * nat * outcome pyval) :=
  run_with (Flow_run call_llm safe_load fuel) self now query.

End Run.

(* ================================================================== *)
(** ** Concrete agents, tools and model scripts *)

Module Fixture.

Definition int_type : pyval := PObj "<class 'int'>" "<class 'int'>".

(** [def add(a: int, b: int) -> int: return a + b] *)
Definition add : pyfunc :=
  mkFunc "add"
         [("a", mkSigParam None POSITIONAL_OR_KEYWORD);
          ("b", mkSigParam None POSITIONAL_OR_KEYWORD)]
         [("a", int_type); ("b", int_type); ("return", int_type)]
         None
         (fun call =>
            match call with
            | Kwargs [("a", PInt x); ("b", PInt y)] => Ok (PInt (x + y))
            | Kwargs [("b", PInt y); ("a", PInt x)] => Ok (PInt (x + y))
            | _ => Raise (TypeError "add() got unexpected arguments")
            end).

(** A tool with a docstring and a default, whose body raises:
    [def lookup(key, retries=3): raise ValueError('no such key')] *)
Definition lookup : pyfunc :=
  mkFunc "lookup"
         [("key", mkSigParam None POSITIONAL_OR_KEYWORD);
          ("retries", mkSigParam (Some (PInt 3)) POSITIONAL_OR_KEYWORD)]
         []
         (Some "Look a key up.")
         (fun _ => Raise (mkExc "ValueError" "no such key")).

(** [def echo(x): return x] *)
Definition echo : pyfunc :=
  mkFunc "echo" [("x", mkSigParam None POSITIONAL_OR_KEYWORD)] [] (Some "")
         (fun call =>
            match call with
            | Positional x => Ok x
            | Kwargs [("x", x)] => Ok x
            | _ => Raise (TypeError "echo() got unexpected arguments")
            end).

Definition agent : Agent := Agent_init "You are a calculator." [add; lookup; echo].

Definition block (body : string) : string :=
  "Here is my decision." ++ Str.nl ++ "```yaml" ++ Str.nl ++ body ++ Str.nl ++ "```".

Definition yaml_add : string :=
  "action: tool" ++ Str.nl ++ "tool_name: add" ++ Str.nl ++ "tool_args: {a: 2, b: 3}".
Definition yaml_lookup : string :=
  "action: tool" ++ Str.nl ++ "tool_name: lookup" ++ Str.nl ++ "tool_args: {key: k}".
Definition yaml_echo : string :=
  "action: tool" ++ Str.nl ++ "tool_name: echo" ++ Str.nl ++ "tool_args: 7".
Definition yaml_search : string :=
  "action: tool" ++ Str.nl ++ "tool_name: search" ++ Str.nl ++ "tool_args: {q: rocq}".
Definition yaml_answer : string :=
  "action: answer" ++ Str.nl ++ "final_answer: '5'".
Definition yaml_empty_answer : string :=
  "action: answer" ++ Str.nl ++ "final_answer: ''".
Definition yaml_finish : string :=
  "action: finish" ++ Str.nl ++ "final_answer: done".

Definition decision_add : pyval :=
  PDict [("action", PStr "tool"); ("tool_name", PStr "add");
         ("tool_args", PDict [("a", PInt 2); ("b", PInt 3)])].
Definition decision_lookup : pyval :=
  PDict [("action", PStr "tool"); ("tool_name", PStr "lookup");
         ("tool_args", PDict [("key", PStr "k")])].
Definition decision_echo : pyval :=
  PDict [("action", PStr "tool"); ("tool_name", PStr "echo");
         ("tool_args", PInt 7)].
Definition decision_search : pyval :=
  PDict [("action", PStr "tool"); ("tool_name", PStr "search");
         ("tool_args", PDict [("q", PStr "rocq")])].
Definition decision_answer : pyval :=
  PDict [("action", PStr "answer"); ("final_answer", PStr "5")].
Definition decision_empty_answer : pyval :=
  PDict [("action", PStr "answer"); ("final_answer", PStr "")].
Definition decision_finish : pyval :=
  PDict [("action", PStr "finish"); ("final_answer", PStr "done")].

(** [yaml.safe_load] on the documents above *)
Definition safe_load (s : string) : outcome pyval :=
  match Dict.get [(yaml_add, decision_add); (yaml_lookup, decision_lookup);
                  (yaml_echo, decision_echo); (yaml_search, decision_search);
                  (yaml_answer, decision_answer);
                  (yaml_empty_answer, decision_empty_answer);
                  (yaml_finish, decision_finish)] s with
  | Some v => Ok v
  | None => Raise (mkExc "ScannerError" "could not parse the document")
  end.

(** A model that answers its calls from a script, in order. *)
Definition scripted (responses : list string) (n : nat) (prompt : string)
  : outcome string :=
  match nth_error responses n with
  | Some r => Ok r
  | None => Raise (mkExc "ConnectionError" "no response")
  end.

Definition q : string := "What is 2+3?".
Definition flow : Flow := create_agent_flow (self_tool_registry agent).

(** The state of a run of [agent] on [q] before its first step. *)
Definition st0 : St :=
  mkSt (initial_shared (append_message agent (mkMessage user (PStr q))) q) 0.

(** The state of that run when the model has just decided [decision]. *)
Definition decided (decision : pyval) : St :=
  mkSt (set_last_decision (shared st0) decision) 1.

(** Scripts of one response. *)
Definition undecided : list string := ["I cannot decide."].
Definition answering : list string := [block yaml_answer].
Definition answering_nothing : list string := [block yaml_empty_answer].

(** The messages of the [i]-th earlier exchange, and an agent that has
    had 25 of them. *)
Definition exchange (i : nat) : list Message :=
  [mkMessage user (PStr ("question " ++ Repr.repr_int (Z.of_nat i)));
   mkMessage assistant (PStr ("answer " ++ Repr.repr_int (Z.of_nat i)))].

Definition veteran : Agent :=
  mkAgent (self_base_prompt agent) (self_tools agent)
          (flat_map exchange (seq 1 25)) [] (self_tool_registry agent).

(** An engine that returns at once. *)
Definition idle_engine (flow : Flow) (st : St) : option (St * outcome unit) :=
  Some (st, Ok tt).

End Fixture.

(* ================================================================== *)
(** ** utils.py: configuration and transport *)

Definition ValueError (msg : string) : pyexc := mkExc "ValueError" msg.

(** [v[i]] for an [int] index within the length (JSON mappings have no
    [int] key). *)
Definition subscript_at (v : pyval) (i : nat) : outcome pyval :=
  match v with
  | PList l => index l i
  | PStr s =>
      match String.get i s with
      | Some c => Ok (PStr (String c ""))
      | None => Raise (mkExc "IndexError" "string index out of range")
      end
  | PDict _ => Raise (mkExc "KeyError" (Repr.repr_int (Z.of_nat i)))
  | _ => Raise (TypeError ("'" ++ type_name v ++ "' object is not subscriptable"))
  end.

(** [len(v)] *)
Definition py_len (v : pyval) : outcome nat :=
  match v with
  | PList l => Ok (List.length l)
  | PDict d => Ok (List.length d)
  | PStr s => Ok (String.length s)
  | _ => Raise (TypeError ("object of type '" ++ type_name v ++ "' has no len()"))
  end.

(** [key in v] for a [str] key *)
Definition py_in (key : string) (v : pyval) : outcome bool :=
  match v with
  | PDict d => Ok (match Dict.get d key with Some _ => true | None => false end)
  | PList l => Ok (existsb (fun x => eq_str x key) l)
  | PStr s => Ok (Str.contains key s)
  | _ => Raise (TypeError ("argument of type '" ++ type_name v
                           ++ "' is not iterable"))
  end.

(** The truth value of a value that [json.loads] yields; there [PObj]
    is a float, which is false when it is zero. *)
Definition truthy (v : pyval) : bool :=
  match v with
  | PNone => false
  | PBool b => b
  | PInt z => negb (Z.eqb z 0)
  | PStr s => negb (String.eqb s "")
  | PList l => match l with [] => false | _ => true end
  | PDict d => match d with [] => false | _ => true end
  | PObj s _ => negb (String.eqb s "0.0" || String.eqb s "-0.0")
  end.

(** [s[n:]] *)
Fixpoint str_drop (n : nat) (s : string) : string :=
  match n, s with
  | S k, String _ s' => str_drop k s'
  | _, _ => s
  end.

Module Utils.

(** The truth value of an optional [str] argument *)
Definition given (o : option string) : bool :=
  match o with
  | Some (String _ _) => true
  | _ => false
  end.

Section Config.

(** The class of the client of the OpenAI package. *)
Variable Client : Type.

(** The dict [_llm_config]. *)
Record LLMConfig : Type := mkConfig {
  provider : string;
  api_key : option string;
  model : string;
  client : option Client
}.

Definition _llm_config : LLMConfig :=
  mkConfig "openrouter" None "anthropic/claude-3.5-sonnet" None.

(** The arguments of one call of [configure_llm]; a call that leaves
    [provider] out passes ["openrouter"]. *)
Record ConfigureArgs : Type := mkArgs {
  arg_provider : string;
  arg_api_key : option string;
  arg_model : option string;
  arg_client : option Client
}.

Definition configure_llm (cfg : LLMConfig) (a : ConfigureArgs) : LLMConfig :=
  mkConfig (arg_provider a)
           (if given (arg_api_key a) then arg_api_key a else api_key cfg)
           (match arg_model a with
            | Some (String c m) => String c m
            | _ => model cfg
            end)
           (match arg_client a with
            | Some c => Some c
            | None => client cfg
            end).

(** What a response of the chat endpoint is to the code. *)
Variable Completion : Type.

(** [client.chat.completions.create] with its keyword arguments *)
Variable chat_create : Client -> list (string * pyval) -> outcome Completion.

(** [r.choices[0].message.content] *)
Variable first_content : Completion -> outcome pyval.

(** [requests.post(url, headers, json).json()]: the parsed body of the
    response, or what the request or the parsing raises. *)
Variable post_json : string -> list (string * string) -> pyval -> outcome pyval.

(** [os.getenv('OPENROUTER_API_KEY')] *)
Variable getenv_key : option string.

Definition user_messages (prompt : string) : pyval :=
  PList [PDict [("role", PStr "user"); ("content", PStr prompt)]].

(** The keyword arguments of a call that spells some out and expands
    a mapping after them: a name given twice is a [TypeError] (its text
    starts with the name of the function called). *)
Fixpoint merge_kwargs (explicit more : list (string * pyval))
  : outcome (list (string * pyval)) :=
  match more with
  | [] => Ok explicit
  | (k, v) :: rest =>
      match Dict.get explicit k with
      | Some _ =>
          Raise (TypeError ("create() got multiple values for keyword argument '"
                            ++ k ++ "'"))
      | None => merge_kwargs (explicit ++ [(k, v)]) rest
      end
  end.

Definition call_llm_openai (prompt : string) (c : Client) (m : string)
           (params : list (string * pyval)) : outcome pyval :=
  kwargs <- merge_kwargs [("model", PStr m); ("messages", user_messages prompt);
                          ("stream", PBool false)] params ;;
  r <- chat_create c kwargs ;;
  first_content r.

Definition openrouter_url : string :=
  "https://openrouter.ai/api/v1/chat/completions".

(** A dict display that spells some entries out and unpacks a mapping
    after them: a later entry replaces an earlier one of the same key. *)
Definition dict_display (explicit more : list (string * pyval))
  : list (string * pyval) :=
  fold_left (fun d kv => Dict.set d (fst kv) (snd kv)) more explicit.

Definition openrouter_payload (prompt m : string) (params : list (string * pyval))
  : list (string * pyval) :=
  dict_display [("model", PStr m); ("messages", user_messages prompt)] params.

Definition call_llm_openrouter (key prompt m : string)
           (params : list (string * pyval)) : outcome pyval :=
  r <- post_json openrouter_url
                 [("Authorization", "Bearer " ++ key);
                  ("Content-Type", "application/json")]
                 (PDict (openrouter_payload prompt m params)) ;;
  choices <- subscript r "choices" ;;
  choice <- subscript_at choices 0 ;;
  message <- subscript choice "message" ;;
  subscript message "content".

(** [call_llm]; the handler logs and raises again what was raised. *)
Definition call_llm (cfg : LLMConfig) (prompt : string)
           (params : list (string * pyval)) : outcome pyval :=
  if String.eqb (provider cfg) "openai" then
    match client cfg with
    | None => Raise (ValueError "OpenAI client not configured. Use configure_llm()")
    | Some c => call_llm_openai prompt c (model cfg) params
    end
  else if String.eqb (provider cfg) "openrouter" then
    let key := if given (api_key cfg) then api_key cfg else getenv_key in
    match key with
    | Some (String c k) => call_llm_openrouter (String c k) prompt (model cfg) params
    | _ => Raise (ValueError "OpenRouter API key not configured")
    end
  else Raise (ValueError ("Unknown provider: " ++ provider cfg)).

(** [call_llm(prompt)] as the decision node uses it: the response is a
    text there; on any other value the node raises at [response.split]. *)
Definition call_llm_text (cfg : LLMConfig) (prompt : string) : outcome string :=
  match call_llm cfg prompt [] with
  | Ok (PStr response) => Ok response
  | Ok v => Raise (AttributeError ("'" ++ type_name v
                                   ++ "' object has no attribute 'split'"))
  | Raise e => Raise e
  end.

End Config.

(* ---------------------------------------------------------------- *)
(** *** The streaming variant: parsing the lines of the response *)

Section Stream.

(** [json.loads]; [None] stands for [json.JSONDecodeError]. *)
Variable json_loads : string -> option pyval.

(** What one line of the response leads to. *)
Inductive LineResult : Type :=
| Skip
| Emit (content : pyval)
| Stop
| Fail (e : pyexc).

(** The body of the [try] for a parsed line: the content to yield, if
    any. *)
Definition delta_content (data_obj : pyval) : outcome (option pyval) :=
  has <- py_in "choices" data_obj ;;
  if has then
    choices <- subscript data_obj "choices" ;;
    n <- py_len choices ;;
    if (0 <? n)%nat then
      choice <- subscript_at choices 0 ;;
      delta <- get_default choice "delta" (PDict []) ;;
      content <- get_default delta "content" PNone ;;
      if truthy content then Ok (Some content) else Ok None
    else Ok None
  else Ok None.

Definition handle_line (line : string) : LineResult :=
  let line := Str.strip line in
  if prefix "data: " line then
    let data := str_drop 6 line in
    if String.eqb data "[DONE]" then Stop
    else
      match json_loads data with
      | None => Skip
      | Some data_obj =>
          match delta_content data_obj with
          | Ok (Some content) => Emit content
          | Ok None => Skip
          | Raise e => Fail e
          end
      end
  else Skip.

(** How the handling of a buffer ends: with a rest that holds no
    complete line, or with the end of the generator. *)
Inductive ScanEnd : Type :=
| More (buffer : string)
| Finished (error : option pyexc).

Definition newline : ascii := ascii_of_nat 10.

(** The loop [while '\n' in buffer] on the text [cur ++ s], where
    [cur] holds no newline: every complete line is handled in turn. *)
Fixpoint scan (cur s : string) : list pyval * ScanEnd :=
  match s with
  | EmptyString => ([], More cur)
  | String c s' =>
      if Ascii.eqb c newline then
        match handle_line cur with
        | Skip => scan "" s'
        | Emit content =>
            let '(ys, e) := scan "" s' in (content :: ys, e)
        | Stop => ([], Finished None)
        | Fail e => ([], Finished (Some e))
        end
      else scan (cur ++ String c "") s'
  end.

(** The loop over the chunks of the response, from a buffer: what the
    generator yields and the exception that ends it, if any. *)
Fixpoint stream_from (buffer : string) (chunks : list string)
  : list pyval * option pyexc :=
  match chunks with
  | [] => ([], None)
  | chunk :: rest =>
      if String.eqb chunk "" then stream_from buffer rest
      else
        match scan "" (buffer ++ chunk) with
        | (ys, More buffer') =>
            let '(zs, e) := stream_from buffer' rest in ((ys ++ zs)%list, e)
        | (ys, Finished e) => (ys, e)
        end
  end.

(** [call_llm_openrouter_stream] on the chunks that the response
    delivers. *)
Definition call_llm_openrouter_stream (chunks : list string)
  : list pyval * option pyexc :=
  stream_from "" chunks.

End Stream.

End Utils.

(** [''.join(chunks)] *)
Definition joined (chunks : list string) : string :=
  fold_right append "" chunks.

(** A value of JSON that is neither a text, a list nor a mapping. *)
Definition json_scalar (v : pyval) : bool :=
  match v with
  | PNone | PBool _ | PInt _ | PObj _ _ => true
  | PStr _ | PList _ | PDict _ => false
  end.

(* ================================================================== *)
(** ** Predicates on run contexts *)

(** The run context holds an answer, and it is the [final_answer] of
    the decision parsed last, whose [action] is not ['tool']. *)
Definition answered (sh : Shared) (answer : pyval) : Prop :=
  final_answer sh = Some answer
  /\ exists decision action,
      last_decision sh = Some decision
      /\ subscript decision "action" = Ok action
      /\ action <> PStr "tool"
      /\ subscript decision "final_answer" = Ok answer.


(** A value that cannot be a key of a dict. *)
Definition unhashable (v : pyval) : bool :=
  match v with
  | PList _ | PDict _ => true
  | _ => false
  end.

(* ================================================================== *)
(** ** Further scenarios *)

Module Scenario.
Import Fixture.

(** A model that asks for the tool [add] at every call. *)
Definition always_add (n : nat) (prompt : string) : outcome string :=
  Ok (block yaml_add).

Definition yaml_text : string := "no mapping here".
Definition yaml_no_action : string := "final_answer: hi".
Definition yaml_no_answer : string := "action: answer".
Definition yaml_no_name : string := "action: tool".
Definition yaml_list_name : string :=
  "action: tool" ++ Str.nl ++ "tool_name: [add]".
Definition yaml_null_name : string :=
  "action: tool" ++ Str.nl ++ "tool_name:".

Definition decision_text : pyval := PStr "no mapping here".
Definition decision_no_action : pyval := PDict [("final_answer", PStr "hi")].
Definition decision_no_answer : pyval := PDict [("action", PStr "answer")].
Definition decision_no_name : pyval := PDict [("action", PStr "tool")].
Definition decision_list_name : pyval :=
  PDict [("action", PStr "tool"); ("tool_name", PList [PStr "add"])].
Definition decision_null_name : pyval :=
  PDict [("action", PStr "tool"); ("tool_name", PNone)].

(** [yaml.safe_load] on the documents of [Fixture] and on those above *)
Definition safe_load (s : string) : outcome pyval :=
  match Dict.get [(yaml_text, decision_text);
                  (yaml_no_action, decision_no_action);
                  (yaml_no_answer, decision_no_answer);
                  (yaml_no_name, decision_no_name);
                  (yaml_list_name, decision_list_name);
                  (yaml_null_name, decision_null_name)] s with
  | Some v => Ok v
  | None => Fixture.safe_load s
  end.

(** A response with text around its block, and one whose block is not
    closed. *)
Definition chatty : string :=
  "Let me think." ++ Str.nl ++ "```yaml" ++ Str.nl ++ yaml_answer ++ Str.nl
  ++ "```" ++ Str.nl ++ "```yaml" ++ Str.nl ++ yaml_add ++ Str.nl ++ "```".
Definition unclosed : string :=
  "Sure:" ++ Str.nl ++ "```yaml" ++ Str.nl ++ yaml_answer ++ Str.nl.

(** [def ping(): ...] and [def greet(name, greeting=None): ...] *)
Definition ping : pyfunc :=
  mkFunc "ping" [] [] (Some "Check the link.") (fun _ => Ok (PStr "pong")).
Definition greet : pyfunc :=
  mkFunc "greet"
         [("name", mkSigParam None POSITIONAL_OR_KEYWORD);
          ("greeting", mkSigParam (Some PNone) POSITIONAL_OR_KEYWORD)]
         [("name", PObj "<class 'str'>" "<class 'str'>")]
         None
         (fun _ => Ok (PStr "hello")).

(** A second tool named [add], registered after the first. *)
Definition add_again : pyfunc :=
  mkFunc "add" [("xs", mkSigParam None VAR_POSITIONAL)] [] (Some "Sum.")
         (fun _ => Ok (PInt 0)).

End Scenario.

(* ================================================================== *)
(** ** Further runs, a configuration and a streamed response *)

Module Wire.
Import Fixture.

(** The state in which the run of [st0] ends when the model asks for
    [add(a=2, b=3)] and then answers ['5']. *)
Definition add_record : ToolCallRecord :=
  mkToolCall (PStr "add") (PDict [("a", PInt 2); ("b", PInt 3)]) "5".

Definition st_added : St :=
  mkSt (set_final_answer
          (set_last_decision
             (append_tool_call (set_last_decision (shared st0) decision_add)
                               add_record)
             decision_answer)
          (PStr "5"))
       2.

Definition add_then_answer_script : list string :=
  [block yaml_add; block yaml_answer].

(** A script that runs out after one tool decision: the second call of
    the model raises. *)
Definition add_then_fail_script : list string := [block yaml_add].

(** A client and a transport that always succeed, and one whose
    response is an error body. *)
Definition chat_create (c : unit) (kwargs : list (string * pyval)) : outcome unit :=
  Ok tt.
Definition first_content (r : unit) : outcome pyval := Ok (PStr "hello").
Definition error_body : list (string * pyval) :=
  [("error", PDict [("message", PStr "No auth credentials found");
                    ("code", PInt 401)])].
Definition post_json (url : string) (headers : list (string * string))
           (payload : pyval) : outcome pyval :=
  Ok (PDict error_body).

(** [configure_llm(api_key='sk-1')] on the configuration of the module *)
Definition configured : Utils.LLMConfig unit :=
  Utils.configure_llm unit (Utils._llm_config unit)
                      (Utils.mkArgs unit "openrouter" (Some "sk-1") None None).

Definition sampling : list (string * pyval) :=
  [("model", PStr "openai/gpt-4o"); ("temperature", PObj "0.2" "0.2")].

(** The JSON text of one event of a streamed response, with the
    content ['Hi'], and its parsed value. *)
Definition quoted (s : string) : string :=
  String Repr.dquote (s ++ String Repr.dquote "").

Definition json_hi : string :=
  "{" ++ quoted "choices" ++ ": [{" ++ quoted "delta" ++ ": {"
      ++ quoted "content" ++ ": " ++ quoted "Hi" ++ "}}]}".

Definition event_hi : pyval :=
  PDict [("choices", PList [PDict [("delta", PDict [("content", PStr "Hi")])]])].

(** [json.loads] on the texts above and on the number [5] *)
Definition json_loads (s : string) : option pyval :=
  Dict.get [(json_hi, event_hi); ("5", PInt 5)] s.

Definition line_hi : string := "data: " ++ json_hi ++ Str.nl.

End Wire.

(* ================================================================== *)
(** * Properties *)

Arguments build_prompt : simpl never.
Arguments Str.split : simpl never.
Arguments Str.strip : simpl never.

Ltac unfold_monad :=
  unfold bindM, lift, ret, raise, modify, on_shared, on_clock in *.

(** ** Strings and lists *)

Lemma split_from_not_nil (sep : string) (s : string) :
  forall skip, Str.split_from sep skip s <> [].
Proof.
  induction s as [|c s IH]; intros skip; cbn [Str.split_from].
  - discriminate.
  - destruct skip as [|k].
    + destruct (prefix sep (String c s)); [discriminate|].
      destruct (Str.split_from sep 0 s); discriminate.
    + apply IH.
Qed.

(** Without an occurrence of the separator, [split] yields the text as
    its only piece. *)
Lemma split_without_separator (sep s : string) :
  Str.contains sep s = false -> Str.split s sep = [s].
Proof.
  unfold Str.split.
  induction s as [|c s IH]; cbn [Str.contains Str.split_from]; intros H.
  - reflexivity.
  - apply orb_false_iff in H. destruct H as [Hp Hc].
    rewrite Hp, (IH Hc). reflexivity.
Qed.

(** With an occurrence of a non-empty separator, [split] yields at least
    two pieces. *)
Lemma split_with_separator (sep s : string) :
  sep <> "" -> Str.contains sep s = true ->
  exists a b rest, Str.split s sep = a :: b :: rest.
Proof.
  unfold Str.split. intros Hsep.
  induction s as [|c s IH]; intros H.
  - destruct sep; [congruence | discriminate].
  - cbn [Str.contains] in H. cbn [Str.split_from].
    destruct (prefix sep (String c s)) eqn:Hp.
    + destruct (Str.split_from sep (String.length sep - 1) s) as [|b rest] eqn:E.
      * exfalso. exact (split_from_not_nil _ _ _ E).
      * exists "", b, rest. reflexivity.
    + simpl in H. destruct (IH H) as (a & b & rest & E).
      rewrite E. exists (String c a), b, rest. reflexivity.
Qed.



Lemma lastn_all {A : Type} (n : nat) (l : list A) :
  List.length l <= n -> lastn n l = l.
Proof.
  intros H. unfold lastn.
  replace (List.length l - n) with 0 by lia. reflexivity.
Qed.




Lemma eq_str_true_iff (v : pyval) (s : string) :
  eq_str v s = true <-> v = PStr s.
Proof.
  destruct v; simpl; try (split; [discriminate | congruence]).
  rewrite String.eqb_eq. split; congruence.
Qed.

(* ================================================================== *)
(** ** The steps of the flow *)

Section Steps.

Variable call_llm : nat -> string -> outcome string.
Variable safe_load : string -> outcome pyval.

Local Abbreviation flow_step := (Flow_step call_llm safe_load).
Local Abbreviation decide_exec := (DecideAction_exec call_llm safe_load).

(** A step at the decision node, in terms of its [exec] and [post]. *)
Lemma Flow_step_DecideAction (flow : Flow) (st : St) :
  flow_step flow DecideAction st =
  match decide_exec (inputs_of (shared st)) (clock st) with
  | (n, Raise e) => (mkSt (shared st) n, Raise e)
  | (n, Ok decision) =>
      match DecideAction_post (inputs_of (shared st)) decision (shared st) with
      | (sh, Raise e) => (mkSt sh n, Raise e)
      | (sh, Ok action) => (mkSt sh n, Ok (successors flow DecideAction action))
      end
  end.
Proof.
  destruct st as [sh n].
  unfold Flow_step, run_node, Node_run, DecideAction_prep, inputs_of.
  unfold_monad. cbn [shared clock].
  destruct (decide_exec _ n) as [n' [decision | e]]; [|reflexivity].
  cbn [shared clock].
  destruct (DecideAction_post _ decision sh) as [sh' [action | e]]; reflexivity.
Qed.

(** A step at the tool node, in terms of its [prep] and [exec]. *)
Lemma Flow_step_CallTool (flow : Flow) (st : St) :
  flow_step flow CallTool st =
  match CallTool_prep (shared st) with
  | Raise e => (st, Raise e)
  | Ok (tool_func, tool_name, tool_args) =>
      match CallTool_exec (tool_func, tool_name, tool_args) (clock st) with
      | (n, Raise e) => (mkSt (shared st) n, Raise e)
      | (n, Ok res) =>
          (mkSt (append_tool_call (shared st)
                                  (mkToolCall tool_name tool_args res)) n,
           Ok (successors flow CallTool "decide"))
      end
  end.
Proof.
  destruct st as [sh n].
  unfold Flow_step, run_node, Node_run.
  unfold_monad. cbn [shared clock].
  destruct (CallTool_prep sh) as [[[tool_func tool_name] tool_args] | e];
    [|reflexivity].
  destruct (CallTool_exec _ n) as [n' [res | e]]; reflexivity.
Qed.

(** The answer node changes nothing and ends every flow that has no
    transition out of it. *)
Lemma Flow_step_ProvideAnswer (flow : Flow) (st : St) :
  flow_step flow ProvideAnswer st =
  (st, Ok (successors flow ProvideAnswer "done")).
Proof.
  destruct st as [sh n].
  unfold Flow_step, run_node, Node_run, ProvideAnswer_prep,
    ProvideAnswer_exec, ProvideAnswer_post.
  unfold_monad. cbn [shared clock].
  destruct (final_answer sh); reflexivity.
Qed.

(** [CallTool.exec] neither raises nor calls the model. *)
Lemma CallTool_exec_total (inputs : option pyfunc * pyval * pyval) (n : nat) :
  exists res, CallTool_exec inputs n = (n, Ok res).
Proof.
  destruct inputs as [[[f|] tool_name] tool_args]; cbn [CallTool_exec].
  - destruct (fn_call f (call_shape tool_args)); eexists; reflexivity.
  - eexists; reflexivity.
Qed.

(** Without the marker of a YAML block in the response, [exec] of the
    decision node raises [IndexError]. *)
Lemma DecideAction_exec_without_block (inputs : DecideInputs) (n : nat)
      (response : string) :
  call_llm n (build_prompt inputs) = Ok response ->
  Str.contains fence_yaml response = false ->
  decide_exec inputs n = (S n, Raise IndexError).
Proof.
  intros Hllm Hno.
  unfold DecideAction_exec. unfold_monad.
  rewrite Hllm, (split_without_separator _ _ Hno). reflexivity.
Qed.

(** With the marker, the lookup of the second piece succeeds: the
    index fault arises only when the marker is missing. *)
Lemma DecideAction_exec_with_block (inputs : DecideInputs) (n : nat)
      (response : string) :
  call_llm n (build_prompt inputs) = Ok response ->
  Str.contains fence_yaml response = true ->
  exists block,
    decide_exec inputs n = (S n, safe_load (Str.strip block)).
Proof.
  intros Hllm Hyes.
  destruct (split_with_separator fence_yaml response) as (a & b & rest & E);
    [discriminate | exact Hyes |].
  unfold DecideAction_exec. unfold_monad.
  rewrite Hllm, E. cbn [index nth_error].
  destruct (Str.split b fence) as [|block more] eqn:Eb.
  - exfalso. exact (split_from_not_nil _ _ _ Eb).
  - exists block. cbn [index nth_error].
    destruct (safe_load (Str.strip block)); reflexivity.
Qed.

(** What [prep] of the tool node yields for a decision that names a
    tool by a string. *)
Lemma CallTool_prep_named (sh : Shared) (d : list (string * pyval))
      (name : string) :
  last_decision sh = Some (PDict d) ->
  Dict.get d "tool_name" = Some (PStr name) ->
  CallTool_prep sh =
  Ok (option_map info_function (Dict.get (tool_registry sh) name),
      PStr name,
      match Dict.get d "tool_args" with
      | Some a => a
      | None => PDict []
      end).
Proof.
  intros Hd Hn. unfold CallTool_prep.
  rewrite Hd. cbn [shared_key bind subscript get_default]. rewrite Hn.
  cbn [bind]. destruct (Dict.get d "tool_args");
    cbn [bind registry_get]; destruct (Dict.get (tool_registry sh) name);
    reflexivity.
Qed.

End Steps.

(* ================================================================== *)
(** ** The decision step *)

Section Decide.

Variable call_llm : nat -> string -> outcome string.
Variable safe_load : string -> outcome pyval.

Local Abbreviation flow_step := (Flow_step call_llm safe_load).
Local Abbreviation flow_orch := (Flow_orch call_llm safe_load).
Local Abbreviation flow_run := (Flow_run call_llm safe_load).
Local Abbreviation decide_exec := (DecideAction_exec call_llm safe_load).
Local Abbreviation agent_run := (run call_llm safe_load).

(** A decision step whose response has no YAML marker raises
    [IndexError] and leaves the run context as it was. *)
Lemma decide_step_without_block (flow : Flow) (st : St) (response : string) :
  call_llm (clock st) (build_prompt (inputs_of (shared st))) = Ok response ->
  Str.contains fence_yaml response = false ->
  flow_step flow DecideAction st
  = (mkSt (shared st) (S (clock st)), Raise IndexError).
Proof.
  intros Hllm Hno. rewrite Flow_step_DecideAction.
  rewrite (DecideAction_exec_without_block _ _ _ _ _ Hllm Hno). reflexivity.
Qed.

(** The decision step on a parsed mapping that has an [action]. *)
Lemma decide_step_mapping (reg : list (string * ToolInfo)) (st : St)
      (d : list (string * pyval)) (action : pyval) (n : nat) :
  decide_exec (inputs_of (shared st)) (clock st) = (n, Ok (PDict d)) ->
  Dict.get d "action" = Some action ->
  flow_step (create_agent_flow reg) DecideAction st =
  if eq_str action "tool"
  then (mkSt (set_last_decision (shared st) (PDict d)) n, Ok (Some CallTool))
  else match Dict.get d "final_answer" with
       | Some answer =>
           (mkSt (set_final_answer (set_last_decision (shared st) (PDict d))
                                   answer) n,
            Ok (Some ProvideAnswer))
       | None =>
           (mkSt (set_last_decision (shared st) (PDict d)) n,
            Raise (KeyError "final_answer"))
       end.
Proof.
  intros Hexec Ha. rewrite Flow_step_DecideAction, Hexec.
  unfold DecideAction_post. unfold_monad. cbn [subscript]. rewrite Ha.
  destruct (eq_str action "tool"); [reflexivity|].
  destruct (Dict.get d "final_answer"); reflexivity.
Qed.

(** From the answer node a flow of the agent ends in one step, with
    the state untouched. *)
Lemma answer_node_ends (reg : list (string * ToolInfo)) (st : St) (fuel : nat) :
  flow_step (create_agent_flow reg) ProvideAnswer st = (st, Ok None)
  /\ flow_orch (S fuel) (create_agent_flow reg) ProvideAnswer st
     = Some (st, Ok tt).
Proof.
  assert (H : flow_step (create_agent_flow reg) ProvideAnswer st = (st, Ok None))
    by apply Flow_step_ProvideAnswer.
  split; [exact H|].
  cbn [Flow_orch]. rewrite H. reflexivity.
Qed.

(** A decision other than ['tool'] that carries a [final_answer] sets
    it and ends the flow at the answer node. *)
Lemma decide_step_answer (reg : list (string * ToolInfo)) (st : St)
      (d : list (string * pyval)) (action answer : pyval) (n fuel : nat) :
  decide_exec (inputs_of (shared st)) (clock st) = (n, Ok (PDict d)) ->
  Dict.get d "action" = Some action ->
  action <> PStr "tool" ->
  Dict.get d "final_answer" = Some answer ->
  let st' := mkSt (set_final_answer (set_last_decision (shared st) (PDict d))
                                    answer) n in
  flow_step (create_agent_flow reg) DecideAction st = (st', Ok (Some ProvideAnswer))
  /\ flow_orch (S (S fuel)) (create_agent_flow reg) DecideAction st
     = Some (st', Ok tt).
Proof.
  intros Hexec Ha Hne Hf st'.
  assert (Hstep : flow_step (create_agent_flow reg) DecideAction st
                  = (st', Ok (Some ProvideAnswer))).
  { rewrite (decide_step_mapping reg st d action n Hexec Ha), Hf.
    destruct (eq_str action "tool") eqn:E; [|reflexivity].
    apply eq_str_true_iff in E. contradiction. }
  split; [exact Hstep|].
  change (flow_orch (S (S fuel)) (create_agent_flow reg) DecideAction st)
    with (match flow_step (create_agent_flow reg) DecideAction st with
          | (st1, Raise e) => Some (st1, Raise e)
          | (st1, Ok None) => Some (st1, Ok tt)
          | (st1, Ok (Some next)) =>
              flow_orch (S fuel) (create_agent_flow reg) next st1
          end).
  rewrite Hstep. apply answer_node_ends.
Qed.

(** C1 (as amended).  When the response of the model to the first
    prompt of a run contains no [```yaml] marker, [run] raises
    [IndexError], the fault of indexing the pieces of the split (the
    code has no [DecisionParseError]); the flow stops at that step with
    the run context unchanged, its [tool_calls] still empty, and the
    agent keeps the query in its history and no new tool call. *)
Theorem run_without_block_raises_IndexError
        (fuel : nat) (self : Agent) (now : nat) (q response : string) :
  let self1 := append_message self (mkMessage user (PStr q)) in
  let sh := initial_shared self1 q in
  call_llm now (build_prompt (inputs_of sh)) = Ok response ->
  Str.contains fence_yaml response = false ->
  flow_run (S fuel) (create_agent_flow (self_tool_registry self1)) (mkSt sh now)
  = Some (mkSt sh (S now), Raise IndexError)
  /\ tool_calls sh = []
  /\ agent_run (S fuel) self now q = Some (self1, S now, Raise IndexError)
  /\ self_tool_call_history self1 = self_tool_call_history self.
Proof.
  intros self1 sh Hllm Hno.
  assert (Hflow :
            flow_run (S fuel) (create_agent_flow (self_tool_registry self1))
                     (mkSt sh now)
            = Some (mkSt sh (S now), Raise IndexError)).
  { unfold Flow_run. cbn [Flow_orch start create_agent_flow].
    rewrite (decide_step_without_block _ (mkSt sh now) response Hllm Hno).
    reflexivity. }
  repeat split.
  - exact Hflow.
  - unfold run, run_with. fold self1. fold sh.
    rewrite Hflow. reflexivity.
Qed.

(** C4 (as amended).  For a decision whose [action] is ['answer'] and
    that carries a [final_answer], the decision step stores that value
    as the final answer, whatever it is (it may be empty), and moves to
    the answer node; the step there changes neither the run context nor
    the count of model calls and ends the flow. *)
Theorem answer_decision_ends_flow
        (reg : list (string * ToolInfo)) (st : St)
        (d : list (string * pyval)) (answer : pyval) (n fuel : nat) :
  decide_exec (inputs_of (shared st)) (clock st) = (n, Ok (PDict d)) ->
  Dict.get d "action" = Some (PStr "answer") ->
  Dict.get d "final_answer" = Some answer ->
  let st' := mkSt (set_final_answer (set_last_decision (shared st) (PDict d))
                                    answer) n in
  flow_step (create_agent_flow reg) DecideAction st = (st', Ok (Some ProvideAnswer))
  /\ flow_step (create_agent_flow reg) ProvideAnswer st' = (st', Ok None)
  /\ flow_orch (S (S fuel)) (create_agent_flow reg) DecideAction st
     = Some (st', Ok tt)
  /\ final_answer (shared st') = Some answer
  /\ tool_calls (shared st') = tool_calls (shared st).
Proof.
  intros Hexec Ha Hf st'.
  destruct (decide_step_answer reg st d (PStr "answer") answer n fuel
                               Hexec Ha ltac:(discriminate) Hf) as [H1 H2].
  split; [exact H1|].
  split; [apply (answer_node_ends reg st' 0)|].
  split; [exact H2|].
  split; reflexivity.
Qed.


End Decide.

(* ================================================================== *)
(** ** The tool step *)

Section Call.

Variable call_llm : nat -> string -> outcome string.
Variable safe_load : string -> outcome pyval.

Local Abbreviation flow_step := (Flow_step call_llm safe_load).

(** The tool step for a decision that names its tool by a string: one
    record is appended, whatever the lookup and the call do, and the
    flow goes back to the decision node. *)
Lemma call_step_named (reg : list (string * ToolInfo)) (st : St)
      (d : list (string * pyval)) (name : string) :
  last_decision (shared st) = Some (PDict d) ->
  Dict.get d "tool_name" = Some (PStr name) ->
  flow_step (create_agent_flow reg) CallTool st =
  (mkSt (append_tool_call
           (shared st)
           (mkToolCall
              (PStr name) (tool_args_of d)
              match Dict.get (tool_registry (shared st)) name with
              | None => "Error: Tool '" ++ name ++ "' not found"
              | Some info =>
                  match fn_call (info_function info)
                                (call_shape (tool_args_of d)) with
                  | Ok res => py_str res
                  | Raise e => "Error calling " ++ name ++ ": " ++ exc_str e
                  end
              end))
        (clock st),
   Ok (Some DecideAction)).
Proof.
  intros Hd Hn. rewrite Flow_step_CallTool.
  rewrite (CallTool_prep_named _ d name Hd Hn). fold (tool_args_of d).
  destruct (Dict.get (tool_registry (shared st)) name) as [info|];
    cbn [option_map CallTool_exec py_str].
  - destruct (fn_call (info_function info) (call_shape (tool_args_of d)));
      reflexivity.
  - reflexivity.
Qed.

(** C2.  When the body of a registered tool raises an exception, the
    tool step does not raise: it appends exactly one record, whose result
    is ["Error calling <name>: <message>"] with the name of the tool and
    [str] of the exception, and the flow goes back to the decision
    node. *)
Theorem tool_exception_is_recorded
        (reg : list (string * ToolInfo)) (st : St)
        (d : list (string * pyval)) (name : string) (info : ToolInfo)
        (e : pyexc) :
  last_decision (shared st) = Some (PDict d) ->
  Dict.get d "tool_name" = Some (PStr name) ->
  Dict.get (tool_registry (shared st)) name = Some info ->
  fn_call (info_function info) (call_shape (tool_args_of d)) = Raise e ->
  let record :=
    mkToolCall (PStr name) (tool_args_of d)
               ("Error calling " ++ name ++ ": " ++ exc_str e) in
  flow_step (create_agent_flow reg) CallTool st
  = (mkSt (append_tool_call (shared st) record) (clock st),
     Ok (Some DecideAction))
  /\ tool_calls (append_tool_call (shared st) record)
     = (tool_calls (shared st) ++ [record])%list.
Proof.
  intros Hd Hn Hreg Hcall record.
  rewrite (call_step_named reg st d name Hd Hn), Hreg, Hcall.
  split; reflexivity.
Qed.

(** C3 (as amended).  When the decision names a tool that the registry
    does not hold, the tool step does not raise: it appends exactly one
    record, whose result is ["Error: Tool '<name>' not found"], and the
    flow goes back to the decision node. *)
Theorem unknown_tool_is_recorded
        (reg : list (string * ToolInfo)) (st : St)
        (d : list (string * pyval)) (name : string) :
  last_decision (shared st) = Some (PDict d) ->
  Dict.get d "tool_name" = Some (PStr name) ->
  Dict.get (tool_registry (shared st)) name = None ->
  let record :=
    mkToolCall (PStr name) (tool_args_of d)
               ("Error: Tool '" ++ name ++ "' not found") in
  flow_step (create_agent_flow reg) CallTool st
  = (mkSt (append_tool_call (shared st) record) (clock st),
     Ok (Some DecideAction))
  /\ tool_calls (append_tool_call (shared st) record)
     = (tool_calls (shared st) ++ [record])%list.
Proof.
  intros Hd Hn Hreg record.
  rewrite (call_step_named reg st d name Hd Hn), Hreg.
  split; reflexivity.
Qed.


End Call.

(* ================================================================== *)
(** ** The prompt and the history view *)

Lemma prefix_append (a b : string) : prefix a (a ++ b) = true.
Proof.
  induction a as [|c a IH]; simpl.
  - destruct b; reflexivity.
  - destruct (Ascii.ascii_dec c c); [exact IH | congruence].
Qed.



(* ================================================================== *)
(** ** The registry *)

Lemma set_fresh {V : Type} (d : list (string * V)) (key : string) (v : V) :
  ~ In key (Dict.keys d) -> Dict.set d key v = (d ++ [(key, v)])%list.
Proof.
  induction d as [|[k x] d IH]; cbn [Dict.set Dict.keys map fst In app]; intros H.
  - reflexivity.
  - destruct (String.eqb k key) eqn:E.
    + apply String.eqb_eq in E. tauto.
    + rewrite IH; [reflexivity | tauto].
Qed.

(** Filling a dict from pairs with distinct fresh keys appends them in
    order. *)
Lemma fold_set_distinct {V W : Type} (f : string -> W -> V)
      (l : list (string * W)) :
  forall acc : list (string * V),
    NoDup (Dict.keys acc ++ Dict.keys l) ->
    fold_left (fun d kw => Dict.set d (fst kw) (f (fst kw) (snd kw))) l acc
    = (acc ++ map (fun kw => (fst kw, f (fst kw) (snd kw))) l)%list.
Proof.
  induction l as [|[k w] l IH]; intros acc H; cbn [fold_left map fst snd].
  - rewrite app_nil_r. reflexivity.
  - assert (Hk : ~ In k (Dict.keys acc)).
    { intros Hin. apply NoDup_remove_2 in H. apply H.
      apply in_or_app. left. exact Hin. }
    rewrite (set_fresh acc k _ Hk), IH.
    + rewrite <- app_assoc. reflexivity.
    + unfold Dict.keys in *. rewrite map_app. cbn [map fst].
      rewrite <- app_assoc. exact H.
Qed.

(** C8.  [register_tool] records, for each parameter of the signature,
    the [str] of its type hint or ["Any"] without a hint, its default or
    [None] without one, and the name of its kind; the description is the
    documentation string, or ["Function <name>"] when [inspect.getdoc]
    yields none (or an empty one, which [or] treats alike). *)
Theorem register_tool_metadata (tool : pyfunc) :
  NoDup (Dict.keys (fn_signature tool)) ->
  let info := register_tool tool in
  info_name info = fn_name tool
  /\ info_description info
     = match fn_getdoc tool with
       | None => "Function " ++ fn_name tool
       | Some doc => if String.eqb doc "" then "Function " ++ fn_name tool else doc
       end
  /\ info_parameters info
     = map (fun np => (fst np, param_info (fn_type_hints tool) (fst np) (snd np)))
           (fn_signature tool)
  /\ forall (param_name : string) (param : SigParam),
      let pi := param_info (fn_type_hints tool) param_name param in
      p_type pi = match Dict.get (fn_type_hints tool) param_name with
                  | Some t => py_str t
                  | None => "Any"
                  end
      /\ p_default pi = match param_default param with
                        | Some v => v
                        | None => PNone
                        end
      /\ p_kind pi = kind_str (param_kind param).
Proof.
  intros Hnd info.
  split; [reflexivity|].
  split.
  { unfold info, register_tool. cbn [info_description].
    destruct (fn_getdoc tool) as [[|c doc]|]; reflexivity. }
  split.
  { unfold info, register_tool. cbn [info_parameters].
    rewrite (fold_set_distinct (param_info (fn_type_hints tool))
                               (fn_signature tool) []); [reflexivity|].
    exact Hnd. }
  intros param_name param pi. unfold pi, param_info. cbn [p_type p_default p_kind].
  split; [|split; reflexivity].
  destruct (Dict.get (fn_type_hints tool) param_name); reflexivity.
Qed.

(* ================================================================== *)
(** ** The end of a run *)

(** C10.  When the flow returns and the run context has no
    [final_answer], [run] returns ["Unable to generate response"] and
    appends it to the history as the message of the assistant. *)
Theorem run_default_answer
        (engine : Flow -> St -> option (St * outcome unit))
        (self : Agent) (now : nat) (q : string) (st : St) (u : unit) :
  let self1 := append_message self (mkMessage user (PStr q)) in
  engine (create_agent_flow (self_tool_registry self1))
         (mkSt (initial_shared self1 q) now)
  = Some (st, Ok u) ->
  final_answer (shared st) = None ->
  exists self',
    run_with engine self now q
    = Some (self', clock st, Ok (PStr "Unable to generate response"))
    /\ self_conversation_history self'
       = (self_conversation_history self
            ++ [mkMessage user (PStr q);
                mkMessage assistant (PStr "Unable to generate response")])%list
    /\ self_tool_call_history self'
       = (self_tool_call_history self ++ tool_calls (shared st))%list.
Proof.
  intros self1 Hengine Hnone.
  unfold run_with. fold self1. rewrite Hengine, Hnone.
  eexists. split; [reflexivity|].
  split; [|reflexivity].
  cbn. rewrite <- app_assoc. reflexivity.
Qed.

(** With the engine of the flow the default is not reached: a flow of
    the agent that returns has set [final_answer]. *)
Lemma flow_returns_with_answer
      (call_llm : nat -> string -> outcome string)
      (safe_load : string -> outcome pyval)
      (reg : list (string * ToolInfo)) (fuel : nat) :
  forall (curr : node) (st st' : St),
    (curr = ProvideAnswer -> final_answer (shared st) <> None) ->
    Flow_orch call_llm safe_load fuel (create_agent_flow reg) curr st
    = Some (st', Ok tt) ->
    final_answer (shared st') <> None.
Proof.
  induction fuel as [|fuel IH]; intros curr st st' Hinv Hrun; [discriminate|].
  cbn [Flow_orch] in Hrun.
  destruct curr.
  - rewrite Flow_step_DecideAction in Hrun.
    destruct (DecideAction_exec _ _ _ _) as [n [decision|e]]; [|discriminate].
    unfold DecideAction_post in Hrun. unfold_monad.
    destruct (subscript decision "action") as [action|e]; [|discriminate].
    destruct (eq_str action "tool").
    + cbn in Hrun. eapply IH; [|exact Hrun]. discriminate.
    + destruct (subscript decision "final_answer") as [answer|e]; [|discriminate].
      cbn in Hrun. eapply IH; [|exact Hrun]. intros _. discriminate.
  - rewrite Flow_step_CallTool in Hrun.
    destruct (CallTool_prep (shared st)) as [[[tool_func tool_name] tool_args]|e];
      [|discriminate].
    destruct (CallTool_exec_total (tool_func, tool_name, tool_args) (clock st))
      as [res Hres].
    rewrite Hres in Hrun. cbn in Hrun.
    eapply IH; [|exact Hrun]. discriminate.
  - rewrite Flow_step_ProvideAnswer in Hrun. cbn in Hrun.
    injection Hrun as <-. apply Hinv. reflexivity.
Qed.

(* ================================================================== *)
(** ** The theorems at concrete runs *)

Module Runs.
Import Fixture.

Lemma run_without_block_raises_IndexError_witness :
  (scripted undecided 0 (build_prompt (inputs_of (shared st0)))
   = Ok "I cannot decide."
   /\ Str.contains fence_yaml "I cannot decide." = false)
  /\ run (scripted undecided) safe_load 1 agent 0 q
     = Some (append_message agent (mkMessage user (PStr q)), 1, Raise IndexError).
Proof.
  split; [split; reflexivity|].
  destruct (run_without_block_raises_IndexError
              (scripted undecided) safe_load 0 agent 0 q "I cannot decide."
              eq_refl eq_refl) as (_ & _ & H & _).
  exact H.
Defined.

(** Against C1 as stated: on a response without a block [run] raises,
    and the class of what it raises is not [DecisionParseError]. *)
Lemma run_without_block_not_DecisionParseError :
  Str.contains fence_yaml "I cannot decide." = false
  /\ ~ (exists (self' : Agent) (n : nat) (e : pyexc),
           run (scripted undecided) safe_load 1 agent 0 q
           = Some (self', n, Raise e)
           /\ exc_class e = "DecisionParseError").
Proof.
  split; [reflexivity|].
  intros (self' & n & e & Hrun & Hclass).
  assert (E : run (scripted undecided) safe_load 1 agent 0 q
              = Some (append_message agent (mkMessage user (PStr q)), 1,
                      Raise IndexError)) by reflexivity.
  rewrite E in Hrun. injection Hrun as _ _ <-.
  discriminate Hclass.
Qed.

Lemma tool_exception_is_recorded_witness :
  (last_decision (shared (decided decision_lookup))
   = Some decision_lookup
   /\ Dict.get (tool_registry (shared (decided decision_lookup))) "lookup"
      = Some (register_tool lookup)
   /\ fn_call lookup (Kwargs [("key", PStr "k")])
      = Raise (mkExc "ValueError" "no such key"))
  /\ Flow_step (scripted []) safe_load flow CallTool (decided decision_lookup)
     = (mkSt (append_tool_call
                (shared (decided decision_lookup))
                (mkToolCall (PStr "lookup") (PDict [("key", PStr "k")])
                            "Error calling lookup: no such key"))
             1,
        Ok (Some DecideAction)).
Proof.
  split; [repeat split|].
  destruct (tool_exception_is_recorded
              (scripted []) safe_load (self_tool_registry agent)
              (decided decision_lookup)
              [("action", PStr "tool"); ("tool_name", PStr "lookup");
               ("tool_args", PDict [("key", PStr "k")])]
              "lookup" (register_tool lookup)
              (mkExc "ValueError" "no such key")
              eq_refl eq_refl eq_refl eq_refl) as [H _].
  exact H.
Defined.

Lemma unknown_tool_is_recorded_witness :
  (last_decision (shared (decided decision_search)) = Some decision_search
   /\ Dict.get (tool_registry (shared (decided decision_search))) "search" = None)
  /\ Flow_step (scripted []) safe_load flow CallTool (decided decision_search)
     = (mkSt (append_tool_call
                (shared (decided decision_search))
                (mkToolCall (PStr "search") (PDict [("q", PStr "rocq")])
                            "Error: Tool 'search' not found"))
             1,
        Ok (Some DecideAction)).
Proof.
  split; [repeat split|].
  destruct (unknown_tool_is_recorded
              (scripted []) safe_load (self_tool_registry agent)
              (decided decision_search)
              [("action", PStr "tool"); ("tool_name", PStr "search");
               ("tool_args", PDict [("q", PStr "rocq")])]
              "search" eq_refl eq_refl eq_refl) as [H _].
  exact H.
Defined.

(** Against C3 as stated: the result recorded for the unknown tool
    [search] is not the text ["Tool 'search' not found"]. *)
Lemma unknown_tool_result_has_prefix :
  Dict.get (tool_registry (shared (decided decision_search))) "search" = None
  /\ ~ (exists (st' : St) (next : option node) (record : ToolCallRecord),
           Flow_step (scripted []) safe_load flow CallTool
                     (decided decision_search)
           = (st', Ok next)
           /\ tool_calls (shared st') = [record]
           /\ result record = "Tool 'search' not found").
Proof.
  split; [reflexivity|].
  intros (st' & next & record & Hstep & Hcalls & Hres).
  assert (E : Flow_step (scripted []) safe_load flow CallTool
                        (decided decision_search)
              = (mkSt (append_tool_call
                         (shared (decided decision_search))
                         (mkToolCall (PStr "search") (PDict [("q", PStr "rocq")])
                                     "Error: Tool 'search' not found"))
                      1,
                 Ok (Some DecideAction))) by reflexivity.
  rewrite E in Hstep. injection Hstep as <- _.
  cbn in Hcalls. injection Hcalls as <-.
  discriminate Hres.
Qed.

Lemma answer_decision_ends_flow_witness :
  (DecideAction_exec (scripted answering) safe_load
                     (inputs_of (shared st0)) 0
   = (1, Ok decision_answer)
   /\ subscript decision_answer "action" = Ok (PStr "answer")
   /\ subscript decision_answer "final_answer" = Ok (PStr "5"))
  /\ Flow_orch (scripted answering) safe_load 2 flow DecideAction st0
     = Some (mkSt (set_final_answer
                     (set_last_decision (shared st0) decision_answer)
                     (PStr "5")) 1,
             Ok tt).
Proof.
  split; [repeat split|].
  destruct (answer_decision_ends_flow
              (scripted answering) safe_load (self_tool_registry agent) st0
              [("action", PStr "answer"); ("final_answer", PStr "5")]
              (PStr "5") 1 0 eq_refl eq_refl eq_refl) as (_ & _ & H & _).
  exact H.
Defined.

(** Against C4 as stated: the decision has the action ['answer'], the
    flow ends, and the final answer is the empty string. *)
Lemma empty_final_answer_is_kept :
  subscript decision_empty_answer "action" = Ok (PStr "answer")
  /\ DecideAction_exec (scripted answering_nothing) safe_load
                       (inputs_of (shared st0)) 0
     = (1, Ok decision_empty_answer)
  /\ exists st' : St,
      Flow_run (scripted answering_nothing) safe_load 2 flow st0
      = Some (st', Ok tt)
      /\ final_answer (shared st') = Some (PStr "")
      /\ String.length (py_str (PStr "")) = 0.
Proof.
  split; [reflexivity|]. split; [reflexivity|].
  eexists. split; [reflexivity|]. split; reflexivity.
Qed.



Lemma NoDup_lookup_signature : NoDup (Dict.keys (fn_signature lookup)).
Proof.
  repeat constructor; cbn; intuition discriminate.
Defined.

Lemma register_tool_metadata_witness :
  NoDup (Dict.keys (fn_signature lookup))
  /\ info_description (register_tool lookup) = "Look a key up."
  /\ info_parameters (register_tool lookup)
     = [("key", mkParamInfo "Any" PNone "POSITIONAL_OR_KEYWORD");
        ("retries", mkParamInfo "Any" (PInt 3) "POSITIONAL_OR_KEYWORD")].
Proof.
  split; [exact NoDup_lookup_signature|].
  destruct (register_tool_metadata lookup NoDup_lookup_signature)
    as (_ & Hdoc & Hparams & _).
  split; [exact Hdoc | exact Hparams].
Defined.

(** The scenario of 25 earlier exchanges: the view that seeds the next
    run holds 20 messages, from the answer of the 16th exchange to the
    new query, and the history of the agent holds all 52 after the run. *)
Lemma view_after_25_exchanges :
  let self1 := append_message veteran (mkMessage user (PStr q)) in
  lastn 20 (self_conversation_history self1)
  = (mkMessage assistant (PStr "answer 16")
       :: flat_map exchange (seq 17 9) ++ [mkMessage user (PStr q)])%list
  /\ List.length (lastn 20 (self_conversation_history self1)) = 20
  /\ exists (self' : Agent) (n : nat),
      run (scripted answering) safe_load 2 veteran 0 q
      = Some (self', n, Ok (PStr "5"))
      /\ List.length (self_conversation_history self') = 52.
Proof.
  split; [reflexivity|]. split; [reflexivity|].
  eexists. eexists. split; reflexivity.
Qed.

(** The scenario of the tool [add]: the model first asks for
    [add(a=2, b=3)], then answers; [run] returns ['5'] and one call is
    recorded, with the result ['5']. *)
Lemma add_then_answer :
  exists self' : Agent,
    run (scripted [block yaml_add; block yaml_answer]) safe_load 4 agent 0 q
    = Some (self', 2, Ok (PStr "5"))
    /\ map result (self_tool_call_history self') = ["5"].
Proof.
  eexists. split; reflexivity.
Qed.

Lemma run_default_answer_witness :
  (idle_engine flow st0 = Some (st0, Ok tt)
   /\ final_answer (shared st0) = None)
  /\ exists self' : Agent,
      run_with idle_engine agent 0 q
      = Some (self', 0, Ok (PStr "Unable to generate response"))
      /\ self_conversation_history self'
         = [mkMessage user (PStr q);
            mkMessage assistant (PStr "Unable to generate response")].
Proof.
  split; [split; reflexivity|].
  destruct (run_default_answer idle_engine agent 0 q st0 tt eq_refl eq_refl)
    as (self' & Hrun & Hhist & _).
  exists self'. split; [exact Hrun | exact Hhist].
Defined.

End Runs.

(* ================================================================== *)
(** * Further properties of the loop *)

Section Loop.

Variable call_llm : nat -> string -> outcome string.
Variable safe_load : string -> outcome pyval.

Local Abbreviation flow_step := (Flow_step call_llm safe_load).
Local Abbreviation flow_orch := (Flow_orch call_llm safe_load).
Local Abbreviation flow_run := (Flow_run call_llm safe_load).
Local Abbreviation decide_exec := (DecideAction_exec call_llm safe_load).
Local Abbreviation agent_run := (run call_llm safe_load).

(** [exec] of the decision node calls the model exactly once. *)
Lemma decide_exec_clock (inputs : DecideInputs) (n : nat) :
  fst (decide_exec inputs n) = S n.
Proof.
  unfold DecideAction_exec. unfold_monad.
  destruct (call_llm n (build_prompt inputs)) as [response|e]; [|reflexivity].
  destruct (index (Str.split response fence_yaml) 1) as [after|e]; [|reflexivity].
  destruct (index (Str.split after fence) 0) as [block|e]; [|reflexivity].
  destruct (safe_load (Str.strip block)); reflexivity.
Qed.

(** [post] of the decision node writes [last_decision] and
    [final_answer] only. *)
Lemma decide_post_keeps (prep_res : DecideInputs) (exec_res : pyval) (sh : Shared) :
  let sh' := fst (DecideAction_post prep_res exec_res sh) in
  query sh' = query sh /\ base_prompt sh' = base_prompt sh
  /\ conversation_history sh' = conversation_history sh
  /\ tool_registry sh' = tool_registry sh
  /\ tool_calls sh' = tool_calls sh.
Proof.
  unfold DecideAction_post. unfold_monad.
  destruct (subscript exec_res "action") as [action|e]; cbn; [|tauto].
  destruct (eq_str action "tool"); cbn; [tauto|].
  destruct (subscript exec_res "final_answer"); cbn; tauto.
Qed.

(** What a step that does not raise does, node by node, in a flow of the
    agent. *)
Lemma step_effect (reg : list (string * ToolInfo)) (curr : node)
      (st st' : St) (next : option node) :
  flow_step (create_agent_flow reg) curr st = (st', Ok next) ->
  match curr with
  | DecideAction =>
      clock st' = S (clock st)
      /\ tool_calls (shared st') = tool_calls (shared st)
      /\ (next = Some CallTool \/ next = Some ProvideAnswer)
  | CallTool =>
      clock st' = clock st
      /\ (exists record,
             tool_calls (shared st') = (tool_calls (shared st) ++ [record])%list)
      /\ next = Some DecideAction
  | ProvideAnswer => st' = st /\ next = None
  end.
Proof.
  intros H. destruct curr.
  - rewrite Flow_step_DecideAction in H.
    pose proof (decide_exec_clock (inputs_of (shared st)) (clock st)) as Hc.
    destruct (decide_exec _ _) as [n [decision|e]]; [|discriminate].
    cbn in Hc. subst n.
    pose proof (decide_post_keeps (inputs_of (shared st)) decision (shared st))
      as Hk.
    unfold DecideAction_post in *. unfold_monad.
    destruct (subscript decision "action") as [action|e]; [|discriminate].
    destruct (eq_str action "tool").
    + cbn in *. injection H as <- <-. cbn. tauto.
    + destruct (subscript decision "final_answer"); [|discriminate].
      cbn in *. injection H as <- <-. cbn. tauto.
  - rewrite Flow_step_CallTool in H.
    destruct (CallTool_prep (shared st)) as [[[tool_func tool_name] tool_args]|e];
      [|discriminate].
    destruct (CallTool_exec_total (tool_func, tool_name, tool_args) (clock st))
      as [res Hres].
    rewrite Hres in H. injection H as <- <-. cbn.
    split; [reflexivity|]. split; [|reflexivity].
    eexists. reflexivity.
  - rewrite Flow_step_ProvideAnswer in H. injection H as <- <-. tauto.
Qed.

(** What any step keeps, whether it returns or raises. *)
Lemma step_keeps (flow : Flow) (curr : node) (st st' : St)
      (o : outcome (option node)) :
  flow_step flow curr st = (st', o) ->
  query (shared st') = query (shared st)
  /\ base_prompt (shared st') = base_prompt (shared st)
  /\ conversation_history (shared st') = conversation_history (shared st)
  /\ tool_registry (shared st') = tool_registry (shared st)
  /\ (exists added,
         tool_calls (shared st') = (tool_calls (shared st) ++ added)%list)
  /\ clock st <= clock st'.
Proof.
  intros H. destruct curr.
  - rewrite Flow_step_DecideAction in H.
    pose proof (decide_exec_clock (inputs_of (shared st)) (clock st)) as Hc.
    destruct (decide_exec _ _) as [n [decision|e]].
    + cbn in Hc. subst n.
      pose proof (decide_post_keeps (inputs_of (shared st)) decision (shared st))
        as Hk.
      destruct (DecideAction_post _ decision (shared st)) as [sh [action|e]];
        cbn in Hk; injection H as <- <-; cbn;
        destruct Hk as (? & ? & ? & ? & Htc);
        repeat (split; [assumption|]);
        (split; [exists []; rewrite app_nil_r; exact Htc | lia]).
    + cbn in Hc. subst n. injection H as <- <-. cbn.
      repeat (split; [reflexivity|]).
      split; [exists []; rewrite app_nil_r; reflexivity | lia].
  - rewrite Flow_step_CallTool in H.
    destruct (CallTool_prep (shared st)) as [[[tool_func tool_name] tool_args]|e].
    + destruct (CallTool_exec_total (tool_func, tool_name, tool_args) (clock st))
        as [res Hres].
      rewrite Hres in H. injection H as <- <-. cbn.
      repeat (split; [reflexivity|]).
      split; [eexists; reflexivity | lia].
    + injection H as <- <-.
      repeat (split; [reflexivity|]).
      split; [exists []; rewrite app_nil_r; reflexivity | lia].
  - rewrite Flow_step_ProvideAnswer in H. injection H as <- <-.
    repeat (split; [reflexivity|]).
    split; [exists []; rewrite app_nil_r; reflexivity | lia].
Qed.

(** X1.  However a flow ends, by returning or by raising, it has
    left the query, the base prompt, the history view and the registry of
    the run context as they were, has only appended to [tool_calls], and
    the count of model calls has not gone down. *)
Theorem flow_keeps_context (flow : Flow) (fuel : nat) :
  forall (curr : node) (st st' : St) (o : outcome unit),
    flow_orch fuel flow curr st = Some (st', o) ->
    query (shared st') = query (shared st)
    /\ base_prompt (shared st') = base_prompt (shared st)
    /\ conversation_history (shared st') = conversation_history (shared st)
    /\ tool_registry (shared st') = tool_registry (shared st)
    /\ (exists added,
           tool_calls (shared st') = (tool_calls (shared st) ++ added)%list)
    /\ clock st <= clock st'.
Proof.
  induction fuel as [|fuel IH]; intros curr st st' o H; [discriminate|].
  cbn [Flow_orch] in H.
  destruct (flow_step flow curr st) as [st1 o1] eqn:Hstep.
  pose proof (step_keeps flow curr st st1 o1 Hstep)
    as (Hq & Hb & Hh & Hr & (added1 & Ht) & Hc).
  destruct o1 as [[next|]|e].
  - destruct (IH next st1 st' o H) as (Hq' & Hb' & Hh' & Hr' & (added2 & Ht') & Hc').
    split; [congruence|]. split; [congruence|]. split; [congruence|].
    split; [congruence|].
    split; [|lia].
    exists (added1 ++ added2)%list. rewrite Ht', Ht, app_assoc. reflexivity.
  - injection H as <- <-.
    repeat (split; [assumption|]). split; [exists added1; exact Ht | exact Hc].
  - injection H as <- <-.
    repeat (split; [assumption|]). split; [exists added1; exact Ht | exact Hc].
Qed.

(** X2.  When a flow of the agent returns, the model was called once
    more than tools were called: the calls counted by the clock are the
    records appended to [tool_calls] plus one. *)
Theorem model_calls_are_tool_calls_plus_one
        (reg : list (string * ToolInfo)) (fuel : nat) (st st' : St) :
  flow_run fuel (create_agent_flow reg) st = Some (st', Ok tt) ->
  clock st' + List.length (tool_calls (shared st))
  = clock st + List.length (tool_calls (shared st')) + 1.
Proof.
  unfold Flow_run. cbn [start create_agent_flow].
  assert (G : forall fuel curr st st',
             flow_orch fuel (create_agent_flow reg) curr st = Some (st', Ok tt) ->
             clock st' + List.length (tool_calls (shared st))
             = clock st + List.length (tool_calls (shared st'))
               + match curr with DecideAction => 1 | _ => 0 end).
  { clear. induction fuel as [|fuel IH]; intros curr st st' H; [discriminate|].
    cbn [Flow_orch] in H.
    destruct (flow_step (create_agent_flow reg) curr st) as [st1 [next|e]] eqn:Hstep;
      [|discriminate].
    pose proof (step_effect reg curr st st1 next Hstep) as He.
    destruct curr.
    - destruct He as (Hc & Ht & [-> | ->]);
        apply IH in H; rewrite Hc, Ht in H; lia.
    - destruct He as (Hc & (record & Ht) & ->).
      apply IH in H. rewrite Hc, Ht, length_app in H. cbn in H. lia.
    - destruct He as (-> & ->). injection H as <-. lia. }
  intros H. apply (G fuel DecideAction st st' H).
Qed.

End Loop.

(* ================================================================== *)
(** ** How a run ends *)

Section Ending.

Variable call_llm : nat -> string -> outcome string.
Variable safe_load : string -> outcome pyval.

Local Abbreviation flow_step := (Flow_step call_llm safe_load).
Local Abbreviation flow_orch := (Flow_orch call_llm safe_load).
Local Abbreviation flow_run := (Flow_run call_llm safe_load).
Local Abbreviation decide_exec := (DecideAction_exec call_llm safe_load).
Local Abbreviation agent_run := (run call_llm safe_load).

(** A flow of the agent that returns went through the answer node, with
    the answer of the last decision in the run context. *)
Lemma flow_returns_answered (reg : list (string * ToolInfo)) (fuel : nat) :
  forall (curr : node) (st st' : St),
    match curr with
    | ProvideAnswer => exists answer, answered (shared st) answer
    | _ => final_answer (shared st) = None
    end ->
    flow_orch fuel (create_agent_flow reg) curr st = Some (st', Ok tt) ->
    exists answer, answered (shared st') answer.
Proof.
  induction fuel as [|fuel IH]; intros curr st st' Hinv H; [discriminate|].
  cbn [Flow_orch] in H. destruct curr.
  - rewrite Flow_step_DecideAction in H.
    destruct (decide_exec _ _) as [n [decision|e]]; [|discriminate].
    unfold DecideAction_post in H. unfold_monad.
    destruct (subscript decision "action") as [action|e] eqn:Ha; [|discriminate].
    destruct (eq_str action "tool") eqn:Et.
    + cbn in H. refine (IH CallTool _ _ _ H). exact Hinv.
    + destruct (subscript decision "final_answer") as [answer|e] eqn:Hf;
        [|discriminate].
      cbn in H. refine (IH ProvideAnswer _ _ _ H).
      exists answer. split; [reflexivity|].
      exists decision, action. cbn.
      repeat split; try assumption.
      intros ->. cbn in Et. discriminate.
  - rewrite Flow_step_CallTool in H.
    destruct (CallTool_prep (shared st)) as [[[tool_func tool_name] tool_args]|e];
      [|discriminate].
    destruct (CallTool_exec_total (tool_func, tool_name, tool_args) (clock st))
      as [res Hres].
    rewrite Hres in H. cbn in H. refine (IH DecideAction _ _ _ H). exact Hinv.
  - rewrite Flow_step_ProvideAnswer in H. cbn in H. injection H as <-.
    exact Hinv.
Qed.

(** X3.  What [run] returns is the [final_answer] of the decision
    parsed last, a decision whose [action] is not ['tool']; the fallback
    text of [run] is never what a returning flow leaves.  The agent then
    holds the query and that answer as its last two messages and the
    tool calls of the run at the end of its log. *)
Theorem run_returns_last_decision_answer
        (fuel : nat) (self self' : Agent) (now n : nat) (q : string)
        (answer : pyval) :
  agent_run fuel self now q = Some (self', n, Ok answer) ->
  let self1 := append_message self (mkMessage user (PStr q)) in
  exists st' : St,
    flow_run fuel (create_agent_flow (self_tool_registry self1))
             (mkSt (initial_shared self1 q) now)
    = Some (st', Ok tt)
    /\ answered (shared st') answer
    /\ n = clock st'
    /\ self' = extend_tool_calls
                 (append_message self1 (mkMessage assistant answer))
                 (tool_calls (shared st')).
Proof.
  intros H self1. unfold run, run_with in H. fold self1 in H.
  destruct (flow_run fuel _ _) as [[st' [[]|e]]|] eqn:Hflow; try discriminate.
  exists st'.
  destruct (flow_returns_answered
              (self_tool_registry self1) fuel DecideAction
              (mkSt (initial_shared self1 q) now) st' eq_refl Hflow)
    as [answer' Hans].
  assert (Hfa : final_answer (shared st') = Some answer') by apply Hans.
  rewrite Hfa in H. injection H as <- <- <-.
  split; [reflexivity|]. split; [exact Hans|]. split; reflexivity.
Qed.

(** X4.  When [run] raises, the agent is left with the query as its
    last message, without an answer to it, and with its log of tool calls
    as before the run: the calls recorded in the run context are
    dropped. *)
Theorem failed_run_keeps_query_only
        (fuel : nat) (self self' : Agent) (now n : nat) (q : string)
        (e : pyexc) :
  agent_run fuel self now q = Some (self', n, Raise e) ->
  self' = append_message self (mkMessage user (PStr q))
  /\ self_tool_call_history self' = self_tool_call_history self
  /\ exists st' : St,
      flow_run fuel (create_agent_flow (self_tool_registry self'))
               (mkSt (initial_shared self' q) now)
      = Some (st', Raise e)
      /\ n = clock st'.
Proof.
  unfold run, run_with. intros H.
  destruct (flow_run fuel _ _) as [[st' [[]|e']]|] eqn:Hflow; try discriminate.
  injection H as <- <- <-.
  split; [reflexivity|]. split; [reflexivity|].
  exists st'. split; [exact Hflow | reflexivity].
Qed.

(** X5.  The loop has no cap on its steps: when every response of the
    model parses to a decision with the action ['tool'] and a tool named
    by a string, the flow never ends, for no number of steps, and neither
    does [run]. *)
Theorem tool_decisions_never_end
        (self : Agent) (now : nat) (q : string) :
  (forall (inputs : DecideInputs) (n : nat),
      exists (d : list (string * pyval)) (name : string),
        decide_exec inputs n = (S n, Ok (PDict d))
        /\ Dict.get d "action" = Some (PStr "tool")
        /\ Dict.get d "tool_name" = Some (PStr name)) ->
  forall fuel : nat, agent_run fuel self now q = None.
Proof.
  intros Hmodel fuel.
  set (reg := self_tool_registry (append_message self (mkMessage user (PStr q)))).
  assert (G : forall fuel st,
             flow_orch fuel (create_agent_flow reg) DecideAction st = None
             /\ ((exists d name,
                     last_decision (shared st) = Some (PDict d)
                     /\ Dict.get d "tool_name" = Some (PStr name)) ->
                 flow_orch fuel (create_agent_flow reg) CallTool st = None)).
  { clear fuel. induction fuel as [|fuel IH]; intros st; [split; reflexivity|].
    split.
    - destruct (Hmodel (inputs_of (shared st)) (clock st))
        as (d & name & Hexec & Ha & Hn).
      cbn [Flow_orch].
      rewrite (decide_step_mapping call_llm safe_load reg st d _ _ Hexec Ha).
      cbn [eq_str String.eqb]. 
      change (eq_str (PStr "tool") "tool") with true. cbn iota.
      apply (IH _). exists d, name. split; [reflexivity | exact Hn].
    - intros (d & name & Hd & Hn). cbn [Flow_orch].
      rewrite (call_step_named call_llm safe_load reg st d name Hd Hn).
      apply (IH _). }
  unfold run, run_with, Flow_run. cbn [start create_agent_flow].
  fold reg.
  destruct (G fuel (mkSt (initial_shared
                            (append_message self (mkMessage user (PStr q))) q)
                         now)) as [-> _].
  reflexivity.
Qed.

End Ending.

(* ================================================================== *)
(** ** Decisions that the nodes cannot use *)

Section Malformed.

Variable call_llm : nat -> string -> outcome string.
Variable safe_load : string -> outcome pyval.

Local Abbreviation flow_step := (Flow_step call_llm safe_load).
Local Abbreviation flow_orch := (Flow_orch call_llm safe_load).
Local Abbreviation decide_exec := (DecideAction_exec call_llm safe_load).

(** A step that raises ends the flow with what it raised. *)
Lemma orch_raise (flow : Flow) (curr : node) (st st' : St) (e : pyexc)
      (fuel : nat) :
  flow_step flow curr st = (st', Raise e) ->
  flow_orch (S fuel) flow curr st = Some (st', Raise e).
Proof. intros H. cbn [Flow_orch]. rewrite H. reflexivity. Qed.



(** X8.  When the last decision has no [tool_name], the tool step
    raises [KeyError('tool_name')] before any call: the flow ends there,
    the run context is untouched and no record is appended. *)
Theorem tool_decision_without_name_raises
        (flow : Flow) (st : St) (d : list (string * pyval)) (fuel : nat) :
  last_decision (shared st) = Some (PDict d) ->
  Dict.get d "tool_name" = None ->
  flow_orch (S fuel) flow CallTool st = Some (st, Raise (KeyError "tool_name")).
Proof.
  intros Hd Hn. apply orch_raise. rewrite Flow_step_CallTool.
  unfold CallTool_prep. rewrite Hd. cbn [shared_key bind subscript].
  rewrite Hn. reflexivity.
Qed.

(** X9.  When the [tool_name] of the last decision is a list or a
    mapping, the lookup in the registry raises [TypeError] (the value
    cannot be a key): the failure is not recorded as a tool result, it
    ends the flow with the run context untouched. *)
Theorem unhashable_tool_name_raises
        (flow : Flow) (st : St) (d : list (string * pyval)) (v : pyval)
        (fuel : nat) :
  last_decision (shared st) = Some (PDict d) ->
  Dict.get d "tool_name" = Some v ->
  unhashable v = true ->
  exists e : pyexc,
    exc_class e = "TypeError"
    /\ flow_orch (S fuel) flow CallTool st = Some (st, Raise e).
Proof.
  intros Hd Hn Hv.
  assert (Hr : exists e, exc_class e = "TypeError"
                         /\ registry_get (tool_registry (shared st)) v = Raise e).
  { destruct v; try discriminate;
      (eexists; split; [|cbn [registry_get]; reflexivity]; reflexivity). }
  destruct Hr as (e & Hclass & Hreg).
  exists e. split; [exact Hclass|].
  apply orch_raise. rewrite Flow_step_CallTool.
  unfold CallTool_prep. rewrite Hd. cbn [shared_key bind subscript get_default].
  rewrite Hn. cbn [bind].
  destruct (Dict.get d "tool_args"); cbn [bind]; rewrite Hreg; reflexivity.
Qed.


End Malformed.

(* ================================================================== *)
(** ** Which part of a response is parsed *)

Lemma prefix_of_longer (a b s : string) :
  prefix (a ++ b) s = true -> prefix a s = true.
Proof.
  revert s. induction a as [|c a IH]; intros s H.
  - destruct s; reflexivity.
  - destruct s as [|c' s]; [discriminate|].
    cbn [append prefix] in *.
    destruct (Ascii.ascii_dec c c'); [apply IH; exact H | discriminate].
Qed.

(** Text without an occurrence of ["```"] has none of ["```yaml"]. *)
Lemma contains_longer (a b s : string) :
  Str.contains a s = false -> Str.contains (a ++ b) s = false.
Proof.
  induction s as [|c s IH]; cbn [Str.contains]; intros H.
  - destruct (prefix (a ++ b) "") eqn:E; [|reflexivity].
    apply prefix_of_longer in E. congruence.
  - apply orb_false_iff in H. destruct H as [Hp Hc].
    apply orb_false_iff. split; [|apply IH; exact Hc].
    destruct (prefix (a ++ b) (String c s)) eqn:E; [|reflexivity].
    apply prefix_of_longer in E. congruence.
Qed.

Lemma split_from_skip (sep passed rest : string) :
  Str.split_from sep (String.length passed) (passed ++ rest)
  = Str.split_from sep 0 rest.
Proof.
  induction passed as [|c passed IH]; [reflexivity|].
  cbn [String.length append Str.split_from]. exact IH.
Qed.

(** When the first occurrence of the separator ends the text [pre],
    [split] yields [pre] and then the pieces of what follows the
    separator. *)
Lemma split_at_first (sep pre rest : string) :
  sep <> "" ->
  String.index 0 sep (pre ++ sep ++ rest) = Some (String.length pre) ->
  Str.split (pre ++ sep ++ rest) sep = pre :: Str.split rest sep.
Proof.
  unfold Str.split. intros Hsep.
  induction pre as [|c pre IH]; intros H.
  - destruct sep as [|c sep]; [congruence|].
    cbn [append Str.split_from].
    change (String c (sep ++ rest)) with (String c sep ++ rest).
    rewrite prefix_append.
    cbn [String.length]. rewrite Nat.sub_1_r. cbn [Nat.pred].
    rewrite split_from_skip. reflexivity.
  - cbn [append String.length String.index] in H.
    cbn [append Str.split_from].
    destruct (prefix sep (String c (pre ++ sep ++ rest))); [discriminate|].
    destruct (String.index 0 sep (pre ++ sep ++ rest)) as [k|] eqn:E;
      [|discriminate].
    injection H as ->. rewrite (IH eq_refl). reflexivity.
Qed.

Section Extraction.

Variable call_llm : nat -> string -> outcome string.
Variable safe_load : string -> outcome pyval.

Local Abbreviation decide_exec := (DecideAction_exec call_llm safe_load).

(** [exec] of the decision node, from the piece after the first marker
    on. *)
Lemma decide_exec_after_marker (inputs : DecideInputs) (n : nat)
      (response pre rest block : string) (more pieces : list string) :
  call_llm n (build_prompt inputs) = Ok response ->
  Str.split response fence_yaml = pre :: rest :: more ->
  Str.split rest fence = block :: pieces ->
  decide_exec inputs n = (S n, safe_load (Str.strip block)).
Proof.
  intros Hllm Hs1 Hs2. unfold DecideAction_exec. unfold_monad.
  rewrite Hllm, Hs1. cbn [index nth_error]. rewrite Hs2. cbn [index nth_error].
  destruct (safe_load (Str.strip block)); reflexivity.
Qed.

(** X11.  For a response with one block, [before], the marker
    ["```yaml"], [body], the fence ["```"] and [after], what is parsed is
    [body] without the white space around it: the text before the marker
    and the text after the closing fence play no part. *)
Theorem closed_block_is_parsed
        (inputs : DecideInputs) (n : nat) (before body after : string) :
  call_llm n (build_prompt inputs)
  = Ok (before ++ fence_yaml ++ body ++ fence ++ after) ->
  String.index 0 fence_yaml (before ++ fence_yaml ++ body ++ fence ++ after)
  = Some (String.length before) ->
  Str.contains fence_yaml (body ++ fence ++ after) = false ->
  String.index 0 fence (body ++ fence ++ after) = Some (String.length body) ->
  decide_exec inputs n = (S n, safe_load (Str.strip body)).
Proof.
  intros Hllm Hfirst Hone Hclose.
  apply (decide_exec_after_marker
           inputs n _ before (body ++ fence ++ after) body
           [] (Str.split after fence) Hllm).
  - rewrite (split_at_first fence_yaml before _ ltac:(discriminate) Hfirst).
    rewrite (split_without_separator _ _ Hone). reflexivity.
  - apply (split_at_first fence body after ltac:(discriminate) Hclose).
Qed.

(** X12.  Only the first block of a response is parsed: with a
    second marker after the closing fence of the first block, whatever
    follows that marker plays no part. *)
Theorem later_blocks_are_ignored
        (inputs : DecideInputs) (n : nat)
        (before body between more : string) :
  call_llm n (build_prompt inputs)
  = Ok (before ++ fence_yaml ++ (body ++ fence ++ between) ++ fence_yaml ++ more) ->
  String.index 0 fence_yaml
               (before ++ fence_yaml
                       ++ (body ++ fence ++ between) ++ fence_yaml ++ more)
  = Some (String.length before) ->
  String.index 0 fence_yaml ((body ++ fence ++ between) ++ fence_yaml ++ more)
  = Some (String.length (body ++ fence ++ between)) ->
  String.index 0 fence (body ++ fence ++ between) = Some (String.length body) ->
  decide_exec inputs n = (S n, safe_load (Str.strip body)).
Proof.
  intros Hllm Hfirst Hsecond Hclose.
  apply (decide_exec_after_marker
           inputs n _ before (body ++ fence ++ between) body
           (Str.split more fence_yaml) (Str.split between fence) Hllm).
  - rewrite (split_at_first fence_yaml before _ ltac:(discriminate) Hfirst).
    rewrite (split_at_first fence_yaml _ more ltac:(discriminate) Hsecond).
    reflexivity.
  - apply (split_at_first fence body between ltac:(discriminate) Hclose).
Qed.

(** X13.  A block that is never closed is parsed all the same: with
    no fence after the marker, everything after the marker is parsed,
    without the white space around it. *)
Theorem unclosed_block_is_parsed
        (inputs : DecideInputs) (n : nat) (before body : string) :
  call_llm n (build_prompt inputs) = Ok (before ++ fence_yaml ++ body) ->
  String.index 0 fence_yaml (before ++ fence_yaml ++ body)
  = Some (String.length before) ->
  Str.contains fence body = false ->
  decide_exec inputs n = (S n, safe_load (Str.strip body)).
Proof.
  intros Hllm Hfirst Hopen.
  apply (decide_exec_after_marker inputs n _ before body body [] [] Hllm).
  - rewrite (split_at_first fence_yaml before _ ltac:(discriminate) Hfirst).
    rewrite (split_without_separator fence_yaml body).
    + reflexivity.
    + apply (contains_longer fence "yaml" body Hopen).
  - apply (split_without_separator _ _ Hopen).
Qed.

End Extraction.

(* ================================================================== *)
(** ** The registry of an agent *)

Lemma get_set {V : Type} (d : list (string * V)) (key key' : string) (v : V) :
  Dict.get (Dict.set d key v) key'
  = if String.eqb key key' then Some v else Dict.get d key'.
Proof.
  induction d as [|[k x] d IH]; cbn [Dict.set Dict.get].
  - reflexivity.
  - destruct (String.eqb k key) eqn:E.
    + apply String.eqb_eq in E. subst k. cbn [Dict.get].
      destruct (String.eqb key key'); reflexivity.
    + cbn [Dict.get]. rewrite IH.
      destruct (String.eqb k key') eqn:E'; [|reflexivity].
      destruct (String.eqb key key') eqn:E2; [|reflexivity].
      apply String.eqb_eq in E'. apply String.eqb_eq in E2.
      apply String.eqb_neq in E. congruence.
Qed.

Lemma keys_set {V : Type} (d : list (string * V)) (key : string) (v : V) :
  Dict.keys (Dict.set d key v)
  = if in_dec string_dec key (Dict.keys d) then Dict.keys d
    else (Dict.keys d ++ [key])%list.
Proof.
  induction d as [|[k x] d IH]; cbn [Dict.set Dict.keys map fst app].
  - destruct (in_dec string_dec key []) as [[]|]; reflexivity.
  - destruct (String.eqb k key) eqn:E.
    + apply String.eqb_eq in E. subst k.
      destruct (in_dec string_dec key (key :: map fst d)) as [|Hn];
        [reflexivity|]. exfalso. apply Hn. left. reflexivity.
    + apply String.eqb_neq in E. cbn [map fst].
      change (map fst (Dict.set d key v)) with (Dict.keys (Dict.set d key v)).
      rewrite IH. unfold Dict.keys.
      destruct (in_dec string_dec key (map fst d)) as [Hi|Hn];
        destruct (in_dec string_dec key (k :: map fst d)) as [Hi'|Hn'];
        try reflexivity.
      * exfalso. apply Hn'. right. exact Hi.
      * exfalso. destruct Hi' as [->|Hi']; [congruence | contradiction].
Qed.

Lemma in_set {V : Type} (d : list (string * V)) (key k : string) (v x : V) :
  In (k, x) (Dict.set d key v) -> (k, x) = (key, v) \/ In (k, x) d.
Proof.
  induction d as [|[k' x'] d IH]; cbn [Dict.set In]; intros H.
  - destruct H as [H|[]]. left. congruence.
  - destruct (String.eqb k' key) eqn:E.
    + apply String.eqb_eq in E. subst k'.
      destruct H as [H|H]; [left; congruence | right; right; exact H].
    + destruct H as [H|H]; [right; left; exact H|].
      destruct (IH H) as [->|Hin]; [left; reflexivity | right; right; exact Hin].
Qed.

Lemma build_registry_snoc (tools : list pyfunc) (tool : pyfunc) :
  build_registry (tools ++ [tool])
  = Dict.set (build_registry tools) (fn_name tool) (register_tool tool).
Proof. unfold build_registry. rewrite fold_left_app. reflexivity. Qed.

(** X14.  Looking a name up in the registry that [Agent.__init__]
    builds yields the metadata of the last tool of the list with that
    name, and nothing when no tool has it: a later tool replaces an
    earlier one of the same name. *)
Theorem registry_lookup_last_wins (tools : list pyfunc) (name : string) :
  Dict.get (self_tool_registry (Agent_init "" tools)) name
  = option_map register_tool
               (find (fun tool => String.eqb (fn_name tool) name) (rev tools)).
Proof.
  cbn [Agent_init self_tool_registry].
  induction tools as [|tool tools IH] using rev_ind; [reflexivity|].
  rewrite build_registry_snoc, get_set, rev_app_distr. cbn [rev app find].
  destruct (String.eqb (fn_name tool) name); [reflexivity | exact IH].
Qed.

Lemma build_registry_keys (tools : list pyfunc) :
  Dict.keys (build_registry tools)
  = rev (nodup string_dec (rev (map fn_name tools))).
Proof.
  induction tools as [|tool tools IH] using rev_ind; [reflexivity|].
  rewrite build_registry_snoc, keys_set, IH, map_app, rev_app_distr.
  cbn [map rev app nodup].
  destruct (in_dec string_dec (fn_name tool) (rev (map fn_name tools)))
    as [Hi|Hn];
    destruct (in_dec string_dec (fn_name tool)
                     (rev (nodup string_dec (rev (map fn_name tools)))))
    as [Hi'|Hn']; try reflexivity.
  - exfalso. apply Hn'. apply -> in_rev. apply nodup_In. exact Hi.
  - exfalso. apply Hn. apply in_rev in Hi'. apply nodup_In in Hi'. exact Hi'.
Qed.

Lemma build_registry_entries (tools : list pyfunc) :
  forall name info,
    In (name, info) (build_registry tools) ->
    info_name info = name
    /\ exists tool, In tool tools /\ info = register_tool tool.
Proof.
  induction tools as [|tool tools IH] using rev_ind; [intros ? ? []|].
  intros name info Hin. rewrite build_registry_snoc in Hin.
  apply in_set in Hin. destruct Hin as [Heq|Hin].
  - injection Heq as -> ->. split; [reflexivity|].
    exists tool. split; [apply in_or_app; right; left|]; reflexivity.
  - destruct (IH name info Hin) as [Hname (t & Ht & Hinfo)].
    split; [exact Hname|]. exists t.
    split; [apply in_or_app; left; exact Ht | exact Hinfo].
Qed.

(** X15.  The registry has one entry for each name of a tool, in the
    order in which the names first occur in the list of tools; every
    entry is stored under the name that its metadata holds and comes from
    a tool of the list. *)
Theorem registry_keys (tools : list pyfunc) :
  let reg := self_tool_registry (Agent_init "" tools) in
  Dict.keys reg = rev (nodup string_dec (rev (map fn_name tools)))
  /\ NoDup (Dict.keys reg)
  /\ (forall name, In name (Dict.keys reg) <-> In name (map fn_name tools))
  /\ forall name info,
      In (name, info) reg ->
      info_name info = name
      /\ exists tool, In tool tools /\ info = register_tool tool.
Proof.
  cbn [Agent_init self_tool_registry].
  split; [apply build_registry_keys|]. split; [|split].
  - rewrite build_registry_keys. apply NoDup_rev. apply NoDup_nodup.
  - intros name.
    rewrite build_registry_keys, <- in_rev, nodup_In, <- in_rev. reflexivity.
  - apply build_registry_entries.
Qed.

(* ================================================================== *)
(** ** The catalogue of tools and the view of the history *)

Lemma append_assoc3 (a b c : string) : (a ++ b) ++ c = a ++ b ++ c.
Proof. induction a as [|x a IH]; cbn; [reflexivity | rewrite IH; reflexivity]. Qed.

Lemma append_empty_r (a : string) : a ++ "" = a.
Proof. induction a as [|x a IH]; cbn; [reflexivity | rewrite IH; reflexivity]. Qed.

(** X16.  The line of the catalogue for a registered tool is
    ["- name(params): description"], where [params] lists the parameters
    of the signature in their order, separated by [", "], each as
    ["name: type"] followed by [" = default"] when the parameter has a
    default other than [None]; a tool without parameters gives ["()"],
    and a default of [None] is shown like no default. *)
Theorem catalogue_line (tool : pyfunc) :
  NoDup (Dict.keys (fn_signature tool)) ->
  let render (np : string * SigParam) : string :=
    fst np ++ ": "
    ++ match Dict.get (fn_type_hints tool) (fst np) with
       | Some t => py_str t
       | None => "Any"
       end
    ++ match param_default (snd np) with
       | Some v => if is_not_None v then " = " ++ py_str v else ""
       | None => ""
       end in
  tool_desc (fn_name tool) (register_tool tool)
  = "- " ++ fn_name tool
    ++ "(" ++ Str.join ", " (map render (fn_signature tool)) ++ "): "
    ++ info_description (register_tool tool).
Proof.
  intros Hnd render.
  assert (Hparams :
            map (fun np => param_str (fst np) (snd np))
                (info_parameters (register_tool tool))
            = map render (fn_signature tool)).
  { cbn [register_tool info_parameters].
    rewrite (fold_set_distinct (param_info (fn_type_hints tool))
                               (fn_signature tool) [] Hnd).
    cbn [app]. rewrite map_map. apply map_ext. intros [pname p].
    unfold render, param_str, param_info. cbn [fst snd p_type p_default].
    replace (py_str match Dict.get (fn_type_hints tool) pname with
                    | Some t => t
                    | None => PStr "Any"
                    end)
      with (match Dict.get (fn_type_hints tool) pname with
            | Some t => py_str t
            | None => "Any"
            end)
      by (destruct (Dict.get (fn_type_hints tool) pname); reflexivity).
    destruct (param_default p) as [v|]; cbn [is_not_None].
    - destruct (is_not_None v).
      + rewrite !append_assoc3. reflexivity.
      + rewrite append_empty_r. reflexivity.
    - rewrite append_empty_r. reflexivity. }
  unfold tool_desc. rewrite Hparams.
  destruct (map render (fn_signature tool)) as [|r rs]; [reflexivity|].
  rewrite !append_assoc3. reflexivity.
Qed.

Lemma join_snoc (sep : string) (parts : list string) (last : string) :
  exists earlier, Str.join sep (parts ++ [last]) = earlier ++ last.
Proof.
  induction parts as [|p parts IH].
  - exists "". reflexivity.
  - destruct IH as [earlier E]. cbn [app Str.join].
    destruct (parts ++ [last])%list as [|p' rest] eqn:El.
    + destruct parts; discriminate.
    + exists (p ++ sep ++ earlier). rewrite E, !append_assoc3. reflexivity.
Qed.

(** X17.  The view of the history that seeds a run always ends with
    the line ["USER: <query>"] of the run itself, since [run] appends the
    query before it renders the view; so the prompt never shows
    ["No previous conversation"] and shows the query both as the last
    line of the history and as the current query. *)
Theorem view_ends_with_query (self : Agent) (q : string) :
  let sh := initial_shared (append_message self (mkMessage user (PStr q))) q in
  (exists earlier, conversation_history sh = earlier ++ "USER: " ++ q)
  /\ query sh = q.
Proof.
  intros sh. split; [|reflexivity].
  cbn [sh initial_shared conversation_history].
  unfold _get_optimized_history, lastn.
  cbn [append_message self_conversation_history].
  rewrite skipn_app, length_app. cbn [List.length].
  replace (List.length (self_conversation_history self) + 1 - 20
           - List.length (self_conversation_history self)) with 0 by lia.
  cbn [skipn].
  set (kept := skipn _ (self_conversation_history self)).
  destruct (kept ++ [mkMessage user (PStr q)])%list as [|m l] eqn:E.
  - destruct kept; discriminate.
  - rewrite <- E, map_app. cbn [map].
    destruct (join_snoc Str.nl (map format_message kept)
                        (format_message (mkMessage user (PStr q))))
      as [earlier Hj].
    exists earlier. rewrite Hj. reflexivity.
Qed.

(** X18.  After [clear_history] the agent has no message and no
    recorded tool call, keeps its prompt, tools and registry, and the
    next run is seeded with the line of its own query alone. *)
Theorem clear_history_starts_over (self : Agent) (q : string) :
  let cleared := clear_history self in
  self_conversation_history cleared = []
  /\ self_tool_call_history cleared = []
  /\ self_tool_registry cleared = self_tool_registry self
  /\ self_base_prompt cleared = self_base_prompt self
  /\ _get_optimized_history cleared = "No previous conversation"
  /\ initial_shared (append_message cleared (mkMessage user (PStr q))) q
     = mkShared q (self_base_prompt self) ("USER: " ++ q)
                (self_tool_registry self) [] None None.
Proof.
  repeat split.
Qed.

(* ================================================================== *)
(** * utils.py: configuration and transport *)

Lemma last_cons {A : Type} (l : list A) (x d : A) : last (x :: l) d = last l x.
Proof.
  revert x d. induction l as [|y l IH]; intros x d; [reflexivity|].
  change (last (x :: y :: l) d) with (last (y :: l) d).
  rewrite (IH y d), (IH y x). reflexivity.
Qed.

Lemma get_absent {V : Type} (d : list (string * V)) (key : string) :
  ~ In key (Dict.keys d) -> Dict.get d key = None.
Proof.
  induction d as [|[k x] d IH]; cbn [Dict.get Dict.keys map fst In]; intros H.
  - reflexivity.
  - destruct (String.eqb k key) eqn:E.
    + apply String.eqb_eq in E. tauto.
    + apply IH. tauto.
Qed.

Lemma get_fold_set {V : Type} (more : list (string * V)) :
  forall (d : list (string * V)) (key : string),
    NoDup (Dict.keys more) ->
    Dict.get (fold_left (fun d kv => Dict.set d (fst kv) (snd kv)) more d) key
    = match Dict.get more key with
      | Some v => Some v
      | None => Dict.get d key
      end.
Proof.
  induction more as [|[k v] more IH]; intros d key Hnd; [reflexivity|].
  cbn [fold_left fst snd Dict.get].
  inversion Hnd as [|? ? Hk Hnd']; subst.
  rewrite (IH _ key Hnd'), get_set.
  destruct (String.eqb k key) eqn:E; [|reflexivity].
  apply String.eqb_eq in E. subst k.
  rewrite (get_absent more key Hk). reflexivity.
Qed.

(** X20.  In the payload sent to OpenRouter an entry of [params]
    replaces the entry of the same key that the code spells out: a
    [model] in [params] is sent instead of the configured model, and so
    for [messages]; every other entry of [params] is sent as it is. *)
Theorem openrouter_params_override
        (prompt m : string) (params : list (string * pyval)) (key : string) :
  NoDup (Dict.keys params) ->
  Dict.get (Utils.openrouter_payload prompt m params) key
  = match Dict.get params key with
    | Some v => Some v
    | None =>
        if String.eqb key "model" then Some (PStr m)
        else if String.eqb key "messages" then Some (Utils.user_messages prompt)
        else None
    end.
Proof.
  intros Hnd. unfold Utils.openrouter_payload, Utils.dict_display.
  rewrite (get_fold_set params _ key Hnd).
  destruct (Dict.get params key); [reflexivity|].
  cbn [Dict.get]. rewrite (String.eqb_sym "model"), (String.eqb_sym "messages").
  reflexivity.
Qed.

Lemma get_app_some {V : Type} (d d' : list (string * V)) (key : string) (v : V) :
  Dict.get d key = Some v -> Dict.get (d ++ d') key = Some v.
Proof.
  induction d as [|[k x] d IH]; cbn [Dict.get app]; [discriminate|].
  destruct (String.eqb k key); [trivial | exact IH].
Qed.

Lemma merge_kwargs_clash (more : list (string * pyval)) :
  forall (explicit : list (string * pyval)) (key : string) (v : pyval),
    Dict.get explicit key = Some v ->
    In key (Dict.keys more) ->
    exists e, exc_class e = "TypeError"
              /\ Utils.merge_kwargs explicit more = Raise e.
Proof.
  induction more as [|[k x] more IH]; intros explicit key v Hget Hin; [destruct Hin|].
  cbn [Utils.merge_kwargs].
  destruct (Dict.get explicit k) eqn:E.
  - eexists. split; [|reflexivity]. reflexivity.
  - destruct Hin as [Heq|Hin]; [cbn in Heq; congruence|].
    apply (IH _ key v); [apply get_app_some; exact Hget | exact Hin].
Qed.

Section Configured.

Variable Client : Type.
Variable Completion : Type.
Variable chat_create : Client -> list (string * pyval) -> outcome Completion.
Variable first_content : Completion -> outcome pyval.
Variable post_json : string -> list (string * string) -> pyval -> outcome pyval.

Local Abbreviation Config := (Utils.LLMConfig Client).
Local Abbreviation configure := (@Utils.configure_llm Client).
Local Abbreviation llm :=
  (Utils.call_llm Client Completion chat_create first_content post_json).
Local Abbreviation llm_text :=
  (Utils.call_llm_text Client Completion chat_create first_content post_json).

(** X19.  Whatever calls of [configure_llm] are made, in a row, the
    provider is the one of the last call, and a key, a model and a client
    are never cleared: each is set afterwards exactly when it was set
    before or some call gave one. *)
Theorem configure_llm_never_clears
        (cfg : Config) (calls : list (Utils.ConfigureArgs Client)) :
  let cfg' := fold_left configure calls cfg in
  Utils.provider Client cfg'
  = last (map (Utils.arg_provider Client) calls) (Utils.provider Client cfg)
  /\ Utils.given (Utils.api_key Client cfg')
     = Utils.given (Utils.api_key Client cfg)
       || existsb (fun a => Utils.given (Utils.arg_api_key Client a)) calls
  /\ negb (String.eqb (Utils.model Client cfg') "")
     = negb (String.eqb (Utils.model Client cfg) "")
       || existsb (fun a => Utils.given (Utils.arg_model Client a)) calls
  /\ match Utils.client Client cfg' with Some _ => true | None => false end
     = match Utils.client Client cfg with Some _ => true | None => false end
       || existsb (fun a => match Utils.arg_client Client a with
                            | Some _ => true
                            | None => false
                            end) calls.
Proof.
  revert cfg. induction calls as [|a calls IH]; intros cfg.
  - cbn. rewrite !orb_false_r. repeat split.
  - cbn [fold_left map existsb].
    destruct (IH (configure cfg a)) as (Hp & Hk & Hm & Hc).
    split; [|split; [|split]].
    + rewrite Hp, last_cons. reflexivity.
    + rewrite Hk. cbn [Utils.configure_llm Utils.api_key].
      destruct (Utils.given (Utils.arg_api_key Client a)) eqn:E.
      * rewrite E, orb_true_r. reflexivity.
      * rewrite orb_false_l. reflexivity.
    + rewrite Hm. cbn [Utils.configure_llm Utils.model].
      destruct (Utils.arg_model Client a) as [[|c m]|]; cbn [Utils.given];
        rewrite ?orb_false_l; try reflexivity.
      rewrite orb_true_r. reflexivity.
    + rewrite Hc. cbn [Utils.configure_llm Utils.client].
      destruct (Utils.arg_client Client a); rewrite ?orb_false_l; try reflexivity.
      rewrite orb_true_r. reflexivity.
Qed.

(** X21.  With the OpenAI provider an entry of [params] named
    [model], [messages] or [stream] does not replace what the code
    passes: the call raises [TypeError] before it reaches the client. *)
Theorem openai_params_clash
        (prompt m : string) (c : Client) (params : list (string * pyval))
        (key : string) :
  In key ["model"; "messages"; "stream"] ->
  In key (Dict.keys params) ->
  exists e : pyexc,
    exc_class e = "TypeError"
    /\ Utils.call_llm_openai Client Completion chat_create first_content
                             prompt c m params
       = Raise e.
Proof.
  intros Hkey Hin.
  assert (Hget : exists v,
             Dict.get [("model", PStr m);
                       ("messages", Utils.user_messages prompt);
                       ("stream", PBool false)] key = Some v).
  { destruct Hkey as [<-|[<-|[<-|[]]]]; eexists; reflexivity. }
  destruct Hget as [v Hget].
  destruct (merge_kwargs_clash params _ key v Hget Hin) as (e & Hclass & Hm).
  exists e. split; [exact Hclass|].
  unfold Utils.call_llm_openai. rewrite Hm. reflexivity.
Qed.

(** X22.  When the body that OpenRouter returns is a mapping without
    [choices] (an error body), [call_llm] raises [KeyError('choices')];
    when its [choices] is an empty list, [call_llm] raises
    [IndexError]. *)
Theorem openrouter_body_without_choice
        (cfg : Config) (getenv_key : option string)
        (c : ascii) (k prompt : string) (params body : list (string * pyval)) :
  Utils.provider Client cfg = "openrouter" ->
  Utils.api_key Client cfg = Some (String c k) ->
  post_json Utils.openrouter_url
            [("Authorization", "Bearer " ++ String c k);
             ("Content-Type", "application/json")]
            (PDict (Utils.openrouter_payload prompt (Utils.model Client cfg) params))
  = Ok (PDict body) ->
  match Dict.get body "choices" with
  | None => llm getenv_key cfg prompt params = Raise (KeyError "choices")
  | Some (PList []) => llm getenv_key cfg prompt params = Raise IndexError
  | Some _ => True
  end.
Proof.
  intros Hp Hk Hpost.
  unfold Utils.call_llm. rewrite Hp, Hk. cbn [String.eqb Ascii.eqb Utils.given].
  change (String.eqb "openrouter" "openai") with false.
  change (String.eqb "openrouter" "openrouter") with true. cbn iota.
  unfold Utils.call_llm_openrouter. rewrite Hpost. cbn [bind subscript].
  destruct (Dict.get body "choices") as [[| | | |[|x l]| |]|]; try exact I;
    reflexivity.
Qed.

(** X23.  With the configuration that the module starts with and no
    key in the environment, [run] raises
    [ValueError('OpenRouter API key not configured')] at its first step,
    whatever the transports would do: no request is made, no tool is
    called, and the agent keeps the query as a message without answer. *)
Theorem unconfigured_run_raises
        (safe_load : string -> outcome pyval)
        (fuel : nat) (self : Agent) (now : nat) (q : string) :
  run (fun _ => llm_text None (Utils._llm_config Client)) safe_load
      (S fuel) self now q
  = Some (append_message self (mkMessage user (PStr q)), S now,
          Raise (ValueError "OpenRouter API key not configured")).
Proof.
  unfold run, run_with, Flow_run. cbn [start create_agent_flow Flow_orch].
  rewrite Flow_step_DecideAction. cbn [shared clock].
  unfold DecideAction_exec. unfold_monad. reflexivity.
Qed.

End Configured.

(* ================================================================== *)
(** * utils.py: the lines of a streamed response *)

Section Streamed.

Variable json_loads : string -> option pyval.

Local Abbreviation handle := (Utils.handle_line json_loads).
Local Abbreviation scan := (Utils.scan json_loads).
Local Abbreviation stream_from := (Utils.stream_from json_loads).
Local Abbreviation stream := (Utils.call_llm_openrouter_stream json_loads).

Local Abbreviation has_newline := (Repr.has_char Utils.newline).

(** What the generator makes of the end of a scan. *)
Local Abbreviation finish :=
  (fun r : list pyval * Utils.ScanEnd =>
     match r with
     | (ys, Utils.More _) => (ys, None)
     | (ys, Utils.Finished e) => (ys, e)
     end).

Lemma has_newline_app (a b : string) :
  has_newline (a ++ b) = has_newline a || has_newline b.
Proof.
  induction a as [|c a IH]; cbn [append Repr.has_char]; [reflexivity|].
  rewrite IH, orb_assoc. reflexivity.
Qed.

(** Text without a newline only grows the buffer. *)
Lemma scan_partial_line (s : string) :
  forall cur, has_newline s = false -> scan cur s = ([], Utils.More (cur ++ s)).
Proof.
  induction s as [|c s IH]; intros cur H; cbn [Utils.scan].
  - rewrite append_empty_r. reflexivity.
  - cbn [Repr.has_char] in H. apply orb_false_iff in H. destruct H as [Hc Hs].
    rewrite Hc, (IH _ Hs), append_assoc3. reflexivity.
Qed.

(** Scanning a text in two parts: the second part goes on from the
    buffer that the first part leaves, unless the first part ended the
    generator. *)
Lemma scan_app (a b : string) :
  forall cur,
    scan cur (a ++ b)
    = match scan cur a with
      | (ys, Utils.More buffer) =>
          let '(zs, e) := scan buffer b in ((ys ++ zs)%list, e)
      | (ys, Utils.Finished e) => (ys, Utils.Finished e)
      end.
Proof.
  induction a as [|c a IH]; intros cur; cbn [append Utils.scan].
  - destruct (scan cur b); reflexivity.
  - destruct (Ascii.eqb c Utils.newline).
    + destruct (handle cur); try reflexivity.
      * apply IH.
      * rewrite IH. destruct (scan "" a) as [ys [buffer|e]]; [|reflexivity].
        destruct (scan buffer b). reflexivity.
    + apply IH.
Qed.

(** The buffer that a scan leaves holds no newline. *)
Lemma scan_leaves_partial_line (s : string) :
  forall cur ys buffer,
    has_newline cur = false ->
    scan cur s = (ys, Utils.More buffer) ->
    has_newline buffer = false.
Proof.
  induction s as [|c s IH]; intros cur ys buffer Hcur H; cbn [Utils.scan] in H.
  - injection H as _ <-. exact Hcur.
  - destruct (Ascii.eqb c Utils.newline) eqn:Ec.
    + destruct (handle cur); try discriminate.
      * apply (IH "" ys buffer eq_refl H).
      * destruct (scan "" s) as [zs [b|e]] eqn:E; [|discriminate].
        injection H as _ <-. apply (IH "" zs b eq_refl E).
    + apply (IH (cur ++ String c "") ys buffer); [|exact H].
      rewrite has_newline_app, Hcur. cbn [Repr.has_char]. rewrite Ec. reflexivity.
Qed.

(** The generator, from a buffer without a newline, is one scan of the
    buffer followed by all chunks. *)
Lemma stream_from_joined (chunks : list string) :
  forall buffer,
    has_newline buffer = false ->
    stream_from buffer chunks = finish (scan buffer (joined chunks)).
Proof.
  induction chunks as [|chunk chunks IH]; intros buffer Hb;
    cbn [Utils.stream_from joined fold_right].
  - reflexivity.
  - fold (joined chunks).
    destruct (String.eqb chunk "") eqn:E.
    + apply String.eqb_eq in E. subst chunk. apply (IH buffer Hb).
    + rewrite (scan_app buffer chunk "").
      rewrite (scan_partial_line buffer "" Hb).
      cbn [append]. rewrite scan_app.
      destruct (scan buffer chunk) as [ys [buffer'|e]] eqn:Es.
      * rewrite (IH buffer' (scan_leaves_partial_line _ _ _ _ Hb Es)).
        destruct (scan buffer' (joined chunks)) as [zs [b|e]]; reflexivity.
      * reflexivity.
Qed.

(** X24.  What the streaming parser yields, and how it ends, depends
    on the text of the response only, not on how the transport cuts it
    into chunks: any list of chunks gives what their concatenation gives
    as one chunk. *)
Theorem stream_ignores_chunking (chunks : list string) :
  Utils.call_llm_openrouter_stream json_loads chunks
  = Utils.call_llm_openrouter_stream json_loads [joined chunks].
Proof.
  unfold Utils.call_llm_openrouter_stream.
  rewrite !(stream_from_joined _ "" eq_refl).
  cbn [joined fold_right]. rewrite append_empty_r. reflexivity.
Qed.

(** X25.  A line at the end of the response that no newline ends is
    never handled: chunks without a newline after the last complete line
    change nothing of what the parser yields. *)
Theorem unfinished_line_is_dropped (chunks : list string) (tail : string) :
  Repr.has_char Utils.newline tail = false ->
  Utils.call_llm_openrouter_stream json_loads (chunks ++ [tail])
  = Utils.call_llm_openrouter_stream json_loads chunks.
Proof.
  intros Htail. unfold Utils.call_llm_openrouter_stream.
  rewrite !(stream_from_joined _ "" eq_refl).
  assert (Hj : joined (chunks ++ [tail]) = joined chunks ++ tail).
  { induction chunks as [|c chunks IH]; cbn [app joined fold_right].
    - apply append_empty_r.
    - fold (joined (chunks ++ [tail])). fold (joined chunks).
      rewrite IH, append_assoc3. reflexivity. }
  rewrite Hj, scan_app.
  destruct (scan "" (joined chunks)) as [ys [buffer|e]]; [|reflexivity].
  rewrite (scan_partial_line tail buffer Htail), app_nil_r. reflexivity.
Qed.

(** X26.  The line ["data: [DONE]"] ends the generator: after
    complete lines that yield [ys], a line that [handle_line] takes as
    the end makes the parser yield [ys] and stop, and nothing that
    follows that line is read. *)
Theorem done_line_ends_stream (text line rest : string) (ys : list pyval) :
  Utils.scan json_loads "" text = (ys, Utils.More "") ->
  Repr.has_char Utils.newline line = false ->
  Utils.handle_line json_loads line = Utils.Stop ->
  Utils.call_llm_openrouter_stream
    json_loads [text ++ line ++ String Utils.newline rest]
  = (ys, None).
Proof.
  intros Htext Hline Hstop. unfold Utils.call_llm_openrouter_stream.
  rewrite (stream_from_joined _ "" eq_refl).
  cbn [joined fold_right]. rewrite append_empty_r.
  rewrite scan_app, Htext, scan_app, (scan_partial_line line "" Hline).
  cbn [append Utils.scan]. rewrite Ascii.eqb_refl, Hstop.
  cbn. rewrite app_nil_r. reflexivity.
Qed.

(** X27.  Only a failure of [json.loads] is passed over.  A data line
    whose JSON is a number, a boolean or null ends the generator with
    [TypeError], after what the lines before it yielded. *)
Theorem scalar_data_line_raises
        (text data rest : string) (ys : list pyval) (v : pyval) :
  Utils.scan json_loads "" text = (ys, Utils.More "") ->
  Repr.has_char Utils.newline data = false ->
  Str.strip ("data: " ++ data) = "data: " ++ data ->
  data <> "[DONE]" ->
  json_loads data = Some v ->
  json_scalar v = true ->
  exists e : pyexc,
    exc_class e = "TypeError"
    /\ Utils.call_llm_openrouter_stream
         json_loads [text ++ ("data: " ++ data) ++ String Utils.newline rest]
       = (ys, Some e).
Proof.
  intros Htext Hdata Hstrip Hdone Hjson Hv.
  assert (Hh : exists e, exc_class e = "TypeError"
                         /\ handle ("data: " ++ data) = Utils.Fail e).
  { unfold Utils.handle_line. rewrite Hstrip.
    change (prefix "data: " ("data: " ++ data)) with (prefix "" data).
    replace (prefix "" data) with true by (destruct data; reflexivity).
    change (str_drop 6 ("data: " ++ data)) with data.
    apply String.eqb_neq in Hdone. rewrite Hdone, Hjson.
    destruct v; try discriminate;
      (eexists; split; [|cbn; reflexivity]; reflexivity). }
  destruct Hh as (e & Hclass & Hfail).
  exists e. split; [exact Hclass|].
  unfold Utils.call_llm_openrouter_stream.
  rewrite (stream_from_joined _ "" eq_refl).
  cbn [joined fold_right]. rewrite append_empty_r.
  rewrite scan_app, Htext, scan_app.
  rewrite (scan_partial_line ("data: " ++ data) "").
  - cbn [append Utils.scan]. rewrite Ascii.eqb_refl.
    change (String "d" (String "a" (String "t" (String "a"
             (String ":" (String " " data))))))
      with ("data: " ++ data).
    rewrite Hfail. cbn. rewrite app_nil_r. reflexivity.
  - rewrite has_newline_app, Hdata. reflexivity.
Qed.

End Streamed.

(* ================================================================== *)
(** * The further properties at concrete runs *)

Module MoreRuns.
Import Fixture Wire.

Lemma flow_keeps_context_witness :
  Flow_orch (scripted add_then_answer_script) Fixture.safe_load
            4 flow DecideAction st0
  = Some (st_added, Ok tt)
  /\ query (shared st_added) = q
     /\ tool_registry (shared st_added) = self_tool_registry agent
     /\ (exists added, tool_calls (shared st_added) = ([] ++ added)%list)
     /\ 0 <= clock st_added.
Proof.
  split; [reflexivity|].
  destruct (flow_keeps_context
              (scripted add_then_answer_script) Fixture.safe_load flow 4
              DecideAction st0 st_added (Ok tt) eq_refl)
    as (Hq & _ & _ & Hr & Ht & Hc).
  split; [exact Hq|]. split; [exact Hr|]. split; [exact Ht | exact Hc].
Defined.

Lemma model_calls_are_tool_calls_plus_one_witness :
  Flow_run (scripted add_then_answer_script) Fixture.safe_load 4 flow st0
  = Some (st_added, Ok tt)
  /\ clock st_added + List.length (tool_calls (shared st0))
     = clock st0 + List.length (tool_calls (shared st_added)) + 1.
Proof.
  split; [reflexivity|].
  exact (model_calls_are_tool_calls_plus_one
           (scripted add_then_answer_script) Fixture.safe_load
           (self_tool_registry agent) 4 st0 st_added eq_refl).
Defined.

Lemma run_returns_last_decision_answer_witness :
  run (scripted add_then_answer_script) Fixture.safe_load 4 agent 0 q
  = Some (extend_tool_calls
            (append_message (append_message agent (mkMessage user (PStr q)))
                            (mkMessage assistant (PStr "5")))
            [add_record],
          2, Ok (PStr "5"))
  /\ exists st' : St,
      Flow_run (scripted add_then_answer_script) Fixture.safe_load 4 flow st0
      = Some (st', Ok tt)
      /\ answered (shared st') (PStr "5").
Proof.
  split; [reflexivity|].
  destruct (run_returns_last_decision_answer
              (scripted add_then_answer_script) Fixture.safe_load
              4 agent _ 0 2 q (PStr "5") eq_refl)
    as (st' & Hflow & Hans & _).
  exists st'. split; [exact Hflow | exact Hans].
Defined.

Lemma failed_run_keeps_query_only_witness :
  run (scripted add_then_fail_script) Fixture.safe_load 3 agent 0 q
  = Some (append_message agent (mkMessage user (PStr q)), 2,
          Raise (mkExc "ConnectionError" "no response"))
  /\ self_tool_call_history (append_message agent (mkMessage user (PStr q)))
     = self_tool_call_history agent.
Proof.
  split; [reflexivity|].
  destruct (failed_run_keeps_query_only
              (scripted add_then_fail_script) Fixture.safe_load
              3 agent _ 0 2 q _ eq_refl)
    as (_ & Hlog & _).
  exact Hlog.
Defined.

Lemma tool_decisions_never_end_witness :
  (forall (inputs : DecideInputs) (n : nat),
      exists (d : list (string * pyval)) (name : string),
        DecideAction_exec Scenario.always_add Fixture.safe_load inputs n
        = (S n, Ok (PDict d))
        /\ Dict.get d "action" = Some (PStr "tool")
        /\ Dict.get d "tool_name" = Some (PStr name))
  /\ run Scenario.always_add Fixture.safe_load 50 agent 0 q = None.
Proof.
  assert (H : forall (inputs : DecideInputs) (n : nat),
             exists (d : list (string * pyval)) (name : string),
               DecideAction_exec Scenario.always_add Fixture.safe_load inputs n
               = (S n, Ok (PDict d))
               /\ Dict.get d "action" = Some (PStr "tool")
               /\ Dict.get d "tool_name" = Some (PStr name)).
  { intros inputs n.
    exists [("action", PStr "tool"); ("tool_name", PStr "add");
            ("tool_args", PDict [("a", PInt 2); ("b", PInt 3)])], "add".
    split; [reflexivity|]. split; reflexivity. }
  split; [exact H|].
  exact (tool_decisions_never_end Scenario.always_add Fixture.safe_load
                                  agent 0 q H 50).
Defined.



Lemma tool_decision_without_name_raises_witness :
  (last_decision (shared (decided Scenario.decision_no_name))
   = Some Scenario.decision_no_name
   /\ subscript Scenario.decision_no_name "tool_name"
      = Raise (KeyError "tool_name"))
  /\ Flow_orch (scripted []) Fixture.safe_load 1 flow CallTool
               (decided Scenario.decision_no_name)
     = Some (decided Scenario.decision_no_name, Raise (KeyError "tool_name")).
Proof.
  split; [split; reflexivity|].
  exact (tool_decision_without_name_raises
           (scripted []) Fixture.safe_load flow
           (decided Scenario.decision_no_name) [("action", PStr "tool")] 0
           eq_refl eq_refl).
Defined.

Lemma unhashable_tool_name_raises_witness :
  (last_decision (shared (decided Scenario.decision_list_name))
   = Some Scenario.decision_list_name
   /\ unhashable (PList [PStr "add"]) = true)
  /\ exists e : pyexc,
      exc_class e = "TypeError"
      /\ Flow_orch (scripted []) Fixture.safe_load 1 flow CallTool
                   (decided Scenario.decision_list_name)
         = Some (decided Scenario.decision_list_name, Raise e).
Proof.
  split; [split; reflexivity|].
  exact (unhashable_tool_name_raises
           (scripted []) Fixture.safe_load flow
           (decided Scenario.decision_list_name)
           [("action", PStr "tool"); ("tool_name", PList [PStr "add"])]
           (PList [PStr "add"]) 0 eq_refl eq_refl eq_refl).
Defined.


Lemma closed_block_is_parsed_witness :
  (String.index 0 fence_yaml (block yaml_answer) = Some 21
   /\ String.index 0 fence (Str.nl ++ yaml_answer ++ Str.nl ++ fence) = Some 34)
  /\ DecideAction_exec (scripted answering) Fixture.safe_load
                       (inputs_of (shared st0)) 0
     = (1, Ok decision_answer).
Proof.
  split; [split; reflexivity|].
  exact (closed_block_is_parsed
           (scripted answering) Fixture.safe_load (inputs_of (shared st0)) 0
           ("Here is my decision." ++ Str.nl) (Str.nl ++ yaml_answer ++ Str.nl) ""
           eq_refl eq_refl eq_refl eq_refl).
Defined.

Lemma later_blocks_are_ignored_witness :
  String.index 0 fence_yaml Scenario.chatty = Some 14
  /\ DecideAction_exec (scripted [Scenario.chatty]) Fixture.safe_load
                       (inputs_of (shared st0)) 0
     = (1, Ok decision_answer).
Proof.
  split; [reflexivity|].
  exact (later_blocks_are_ignored
           (scripted [Scenario.chatty]) Fixture.safe_load
           (inputs_of (shared st0)) 0
           ("Let me think." ++ Str.nl) (Str.nl ++ yaml_answer ++ Str.nl)
           Str.nl (Str.nl ++ yaml_add ++ Str.nl ++ "```")
           eq_refl eq_refl eq_refl eq_refl).
Defined.

Lemma unclosed_block_is_parsed_witness :
  (String.index 0 fence_yaml Scenario.unclosed = Some 6
   /\ Str.contains fence (Str.nl ++ yaml_answer ++ Str.nl) = false)
  /\ DecideAction_exec (scripted [Scenario.unclosed]) Fixture.safe_load
                       (inputs_of (shared st0)) 0
     = (1, Ok decision_answer).
Proof.
  split; [split; reflexivity|].
  exact (unclosed_block_is_parsed
           (scripted [Scenario.unclosed]) Fixture.safe_load
           (inputs_of (shared st0)) 0
           ("Sure:" ++ Str.nl) (Str.nl ++ yaml_answer ++ Str.nl)
           eq_refl eq_refl eq_refl).
Defined.

Lemma NoDup_greet_signature : NoDup (Dict.keys (fn_signature Scenario.greet)).
Proof.
  repeat constructor; cbn; intuition discriminate.
Defined.

Lemma catalogue_line_witness :
  NoDup (Dict.keys (fn_signature Scenario.greet))
  /\ tool_desc "greet" (register_tool Scenario.greet)
     = "- greet(name: <class 'str'>, greeting: Any): Function greet".
Proof.
  split; [exact NoDup_greet_signature|].
  exact (catalogue_line Scenario.greet NoDup_greet_signature).
Defined.

Lemma NoDup_sampling : NoDup (Dict.keys sampling).
Proof.
  repeat constructor; cbn; intuition discriminate.
Defined.

Lemma openrouter_params_override_witness :
  NoDup (Dict.keys sampling)
  /\ Dict.get (Utils.openrouter_payload "Hi" "anthropic/claude-3.5-sonnet" sampling)
              "model"
     = Some (PStr "openai/gpt-4o").
Proof.
  split; [exact NoDup_sampling|].
  exact (openrouter_params_override
           "Hi" "anthropic/claude-3.5-sonnet" sampling "model" NoDup_sampling).
Defined.

Lemma openai_params_clash_witness :
  (In "stream" ["model"; "messages"; "stream"]
   /\ In "stream" (Dict.keys [("stream", PBool true)]))
  /\ exists e : pyexc,
      exc_class e = "TypeError"
      /\ Utils.call_llm_openai unit unit chat_create first_content
                               "Hi" tt "gpt-4o" [("stream", PBool true)]
         = Raise e.
Proof.
  assert (H1 : In "stream" ["model"; "messages"; "stream"])
    by (right; right; left; reflexivity).
  assert (H2 : In "stream" (Dict.keys [("stream", PBool true)]))
    by (left; reflexivity).
  split; [split; assumption|].
  exact (openai_params_clash unit unit chat_create first_content
                             "Hi" "gpt-4o" tt [("stream", PBool true)] "stream"
                             H1 H2).
Defined.

Lemma openrouter_body_without_choice_witness :
  (Utils.provider unit configured = "openrouter"
   /\ Utils.api_key unit configured = Some "sk-1"
   /\ Dict.get error_body "choices" = None)
  /\ Utils.call_llm unit unit chat_create first_content post_json None
                    configured "Hi" []
     = Raise (KeyError "choices").
Proof.
  split; [repeat split|].
  exact (openrouter_body_without_choice
           unit unit chat_create first_content post_json configured None
           "s"%char "k-1" "Hi" [] error_body eq_refl eq_refl eq_refl).
Defined.

Lemma unfinished_line_is_dropped_witness :
  Repr.has_char Utils.newline "data: [DO" = false
  /\ Utils.call_llm_openrouter_stream json_loads [line_hi; "data: [DO"]
     = Utils.call_llm_openrouter_stream json_loads [line_hi].
Proof.
  split; [reflexivity|].
  exact (unfinished_line_is_dropped json_loads [line_hi] "data: [DO" eq_refl).
Defined.

Lemma done_line_ends_stream_witness :
  (Utils.scan json_loads "" line_hi = ([PStr "Hi"], Utils.More "")
   /\ Utils.handle_line json_loads "data: [DONE]" = Utils.Stop)
  /\ Utils.call_llm_openrouter_stream
       json_loads [line_hi ++ "data: [DONE]" ++ String Utils.newline line_hi]
     = ([PStr "Hi"], None).
Proof.
  split; [split; reflexivity|].
  exact (done_line_ends_stream json_loads line_hi "data: [DONE]" line_hi
                               [PStr "Hi"] eq_refl eq_refl eq_refl).
Defined.

Lemma scalar_data_line_raises_witness :
  (json_loads "5" = Some (PInt 5) /\ json_scalar (PInt 5) = true)
  /\ exists e : pyexc,
      exc_class e = "TypeError"
      /\ Utils.call_llm_openrouter_stream
           json_loads [line_hi ++ ("data: " ++ "5") ++ String Utils.newline line_hi]
         = ([PStr "Hi"], Some e).
Proof.
  split; [split; reflexivity|].
  exact (scalar_data_line_raises
           json_loads line_hi "5" line_hi [PStr "Hi"] (PInt 5)
           eq_refl eq_refl eq_refl ltac:(discriminate) eq_refl eq_refl).
Defined.

End MoreRuns.
